(** * gopassivedns: the packet pipeline of [main.go]

    A shallow embedding of the DNS extractor ([getDnsLayer], [getIpaddrs]),
    the per-worker correlation table ([handlePacket]), its garbage collector
    ([cleanDnsCache]), the record builder ([initLogEntry], [TypeString],
    [RrString]), the cached encoding of an entry ([ensureEncoded], [Length],
    [Encode]), the fan-out to the sinks ([logConn]) and the flow sharder
    (the dispatch loop of [doCapture]).

    Conventions.
    - Go's fixed-width integers are values of [Z]; the only conversion that
      wraps, [int(uint64)], is written out in [int_of_uint64].
    - [[]byte] is [list byte]; the conversion [string(b)] is
      [string_of_list_byte].
    - A Go run-time panic (index out of range, slice bounds out of range,
      failed type assertion, nil dereference) is the [Panic] result.
    - [map[uint16]dnsMapEntry] is a [gmap Z dnsMapEntry].
    - [time.Time] is an instant in nanoseconds, [time.Duration] a signed
      number of nanoseconds; every call of [time.Now()] is an input.
    - The functions of gopacket and of the Go library that [main.go] calls
      but does not define are the fields of the class [Extern]. *)

From Stdlib Require Import ZArith String Ascii List Lia DecimalString DecimalPos DecimalZ.
From Stdlib.Strings Require Import Byte.
From stdpp Require Import base option list gmap fin_maps.
Import ListNotations.

Open Scope string_scope.
Open Scope list_scope.
Open Scope Z_scope.

(** ** Run-time panics *)

Inductive panic : Type :=
| IndexOutOfRange
| SliceBoundsOutOfRange
| InterfaceConversion
| NilDereference.

Inductive result (A : Type) : Type :=
| Ok (a : A)
| Panic (p : panic).

Arguments Ok {A} a.
Arguments Panic {A} p.

#[global] Instance result_ret : MRet result := fun A a => Ok a.

#[global] Instance result_bind : MBind result := fun A B f r =>
  match r with
  | Ok a => f a
  | Panic p => Panic p
  end.

Definition is_Ok {A} (r : result A) : Prop := exists a, r = Ok a.

(** [s[0]] on a slice. *)
Definition index0 {A} (s : list A) : result A :=
  match s with
  | x :: _ => Ok x
  | [] => Panic IndexOutOfRange
  end.

(** [s[low:]] on a slice: panics unless [low <= len(s)]. *)
Definition slice_from {A} (low : nat) (s : list A) : result (list A) :=
  if (low <=? length s)%nat then Ok (drop low s) else Panic SliceBoundsOutOfRange.

(** ** Time *)

Definition Time : Type := Z.
Definition Duration : Type := Z.

Definition Time_Add (t : Time) (d : Duration) : Time := t + d.
Definition Time_Before (t u : Time) : bool := t <? u.

(** ** The DNS layer of gopacket, as far as [main.go] reads it *)

Definition net_IP : Type := list byte.

Definition DNSType : Type := Z.

Definition DNSTypeA : DNSType := 1.
Definition DNSTypeNS : DNSType := 2.
Definition DNSTypeCNAME : DNSType := 5.
Definition DNSTypeSOA : DNSType := 6.
Definition DNSTypePTR : DNSType := 12.
Definition DNSTypeMX : DNSType := 15.
Definition DNSTypeTXT : DNSType := 16.
Definition DNSTypeAAAA : DNSType := 28.
Definition DNSTypeSRV : DNSType := 33.

Definition DNSOpCodeQuery : Z := 0.

Module DNSQuestion.
Record t : Type := mk {
  Name : list byte;
  Type_ : DNSType;
  Class : Z
}.
End DNSQuestion.

Module DNSSOA.
Record t : Type := mk {
  MName : list byte;
  RName : list byte
}.
End DNSSOA.

Module DNSSRV.
Record t : Type := mk {
  Priority : Z;
  Weight : Z;
  Port : Z;
  Name : list byte
}.
End DNSSRV.

Module DNSMX.
Record t : Type := mk {
  Preference : Z;
  Name : list byte
}.
End DNSMX.

Module DNSResourceRecord.
Record t : Type := mk {
  Name : list byte;
  Type_ : DNSType;
  Class : Z;
  TTL : Z;
  Data : list byte;
  IP : net_IP;
  NS : list byte;
  CNAME : list byte;
  PTR : list byte;
  TXT : list byte;
  SOA : DNSSOA.t;
  SRV : DNSSRV.t;
  MX : DNSMX.t
}.
End DNSResourceRecord.

Record DNS : Type := mkDNS {
  ID : Z;
  QR : bool;
  OpCode : Z;
  ResponseCode : Z;
  Questions : list DNSQuestion.t;
  Answers : list DNSResourceRecord.t
}.

(** ** Packets and layers *)

Inductive LayerType : Type :=
| LayerTypeEthernet
| LayerTypeIPv4
| LayerTypeIPv6
| LayerTypeUDP
| LayerTypeTCP
| LayerTypeDNS
| LayerTypePayload
| LayerTypeDecodeFailure.

#[global] Instance LayerType_eq_dec : EqDecision LayerType.
Proof. solve_decision. Defined.

Definition LayerType_String (t : LayerType) : string :=
  match t with
  | LayerTypeEthernet => "Ethernet"
  | LayerTypeIPv4 => "IPv4"
  | LayerTypeIPv6 => "IPv6"
  | LayerTypeUDP => "UDP"
  | LayerTypeTCP => "TCP"
  | LayerTypeDNS => "DNS"
  | LayerTypePayload => "Payload"
  | LayerTypeDecodeFailure => "DecodeFailure"
  end.

Inductive Layer : Type :=
| EthernetLayer (contents : list byte)
| IPv4Layer (SrcIP DstIP : net_IP) (contents : list byte)
| IPv6Layer (SrcIP DstIP : net_IP) (contents : list byte)
| UDPLayer (contents : list byte)
| TCPLayer (contents : list byte)
| DNSLayer (dns : DNS) (contents : list byte)
| PayloadLayer (contents : list byte)
| DecodeFailureLayer (contents : list byte).

Definition Layer_LayerType (l : Layer) : LayerType :=
  match l with
  | EthernetLayer _ => LayerTypeEthernet
  | IPv4Layer _ _ _ => LayerTypeIPv4
  | IPv6Layer _ _ _ => LayerTypeIPv6
  | UDPLayer _ => LayerTypeUDP
  | TCPLayer _ => LayerTypeTCP
  | DNSLayer _ _ => LayerTypeDNS
  | PayloadLayer _ => LayerTypePayload
  | DecodeFailureLayer _ => LayerTypeDecodeFailure
  end.

Definition LayerContents (l : Layer) : list byte :=
  match l with
  | EthernetLayer c | IPv4Layer _ _ c | IPv6Layer _ _ c | UDPLayer c
  | TCPLayer c | DNSLayer _ c | PayloadLayer c | DecodeFailureLayer c => c
  end.

Record Packet : Type := mkPacket { Layers : list Layer }.

(** [packet.Layer(t)]: the first layer of type [t], or nil. *)
Definition Packet_Layer (packet : Packet) (t : LayerType) : option Layer :=
  List.find (fun l => bool_decide (Layer_LayerType l = t)) (Layers packet).

Record Flow : Type := mkFlow {
  EndpointType : LayerType;
  Src : list byte;
  Dst : list byte
}.

Definition Flow_Reverse (f : Flow) : Flow :=
  {| EndpointType := EndpointType f; Src := Dst f; Dst := Src f |}.

(** [packet.NetworkLayer()]: the first network layer, or nil. *)
Definition Packet_NetworkLayer (packet : Packet) : option Layer :=
  List.find (fun l => match l with
                      | IPv4Layer _ _ _ | IPv6Layer _ _ _ => true
                      | _ => false
                      end) (Layers packet).

(** [net.NetworkFlow()] of a network layer. *)
Definition NetworkFlow (net : Layer) : Flow :=
  match net with
  | IPv4Layer s d _ => {| EndpointType := LayerTypeIPv4; Src := s; Dst := d |}
  | IPv6Layer s d _ => {| EndpointType := LayerTypeIPv6; Src := s; Dst := d |}
  | _ => {| EndpointType := Layer_LayerType net; Src := []; Dst := [] |}
  end.

(** ** What [main.go] takes from its libraries *)

Class Extern : Type := {
  (** [net.IP.String] *)
  IP_String : net_IP -> string;
  (** [layers.DNSResponseCode.String] *)
  ResponseCode_String : Z -> string;
  (** [t.UTC().Format(time.RFC3339)] *)
  Format_RFC3339 : Time -> string;
  (** [gopacket.NewPacket(data, layers.LayerTypeDNS, gopacket.Default)];
      [None] is a nil packet *)
  NewPacket_DNS : list byte -> option Packet;
  (** [gopacket.Flow.FastHash], a [uint64] *)
  FastHash : Flow -> Z
}.

(** ** Stringification *)

(** [strconv.Itoa]. *)
Definition Itoa (i : Z) : string := NilZero.string_of_int (Z.to_int i).

Definition TypeString (dnsType : DNSType) : string :=
  if dnsType =? DNSTypeA then "A"
  else if dnsType =? DNSTypeAAAA then "AAAA"
  else if dnsType =? DNSTypeCNAME then "CNAME"
  else if dnsType =? DNSTypeMX then "MX"
  else if dnsType =? DNSTypeNS then "NS"
  else if dnsType =? DNSTypePTR then "PTR"
  else if dnsType =? DNSTypeTXT then "TXT"
  else if dnsType =? DNSTypeSOA then "SOA"
  else if dnsType =? DNSTypeSRV then "SRV"
  else if dnsType =? 255 then "ANY"
  else Itoa dnsType.

Section Stringify.
Context `{!Extern}.

Definition RrString (rr : DNSResourceRecord.t) : string :=
  let ty := DNSResourceRecord.Type_ rr in
  if ty =? DNSTypeA then IP_String (DNSResourceRecord.IP rr)
  else if ty =? DNSTypeAAAA then IP_String (DNSResourceRecord.IP rr)
  else if ty =? DNSTypeCNAME then string_of_list_byte (DNSResourceRecord.CNAME rr)
  else if ty =? DNSTypeMX then string_of_list_byte (DNSMX.Name (DNSResourceRecord.MX rr))
  else if ty =? DNSTypeNS then string_of_list_byte (DNSResourceRecord.NS rr)
  else if ty =? DNSTypePTR then string_of_list_byte (DNSResourceRecord.PTR rr)
  else if ty =? DNSTypeTXT then string_of_list_byte (DNSResourceRecord.TXT rr)
  else if ty =? DNSTypeSOA then string_of_list_byte (DNSSOA.RName (DNSResourceRecord.SOA rr))
  else if ty =? DNSTypeSRV then string_of_list_byte (DNSSRV.Name (DNSResourceRecord.SRV rr))
  else string_of_list_byte (DNSResourceRecord.Data rr).

End Stringify.

(** ** Log entries and the connection table *)

Record dnsLogEntry : Type := mkLogEntry {
  Query_ID : Z;
  Response_Code : Z;
  Question : string;
  Question_Type : string;
  Answer : string;
  Answer_Type : string;
  TTL : Z;
  Server : net_IP;
  Client : net_IP;
  Timestamp : string;
  encoded : option (list byte);
  err : option string
}.

Record dnsMapEntry : Type := mkMapEntry {
  entry : DNS;
  inserted : Time
}.

Abbreviation conntable_t := (gmap Z dnsMapEntry).

(** ** [cleanDnsCache]: one wake-up of the collector

    The body of the [for] loop after [time.Sleep]; [now] is the value of
    [time.Now()].  Ranging over a Go map while deleting the key in hand
    visits every entry that was present once, which is the fold over the
    table as it was. *)
Definition cleanDnsCache (conntable : conntable_t) (maxAge : Duration) (now : Time)
  : conntable_t :=
  let cleanupCutoff := Time_Add now maxAge in
  map_fold (fun key item tbl =>
              if Time_Before (inserted item) cleanupCutoff
              then delete key tbl
              else tbl)
           conntable conntable.

(** ** [getIpaddrs] *)

Definition getIpaddrs (packet : Packet) : result (net_IP * net_IP) :=
  match Packet_Layer packet LayerTypeIPv4 with
  | Some ipLayer =>
      match ipLayer with
      | IPv4Layer SrcIP DstIP _ => Ok (SrcIP, DstIP)
      | _ => Panic NilDereference
      end
  | None =>
      match Packet_Layer packet LayerTypeIPv6 with
      | Some ipLayer =>
          match ipLayer with
          | IPv6Layer SrcIP DstIP _ => Ok (SrcIP, DstIP)
          | _ => Panic NilDereference
          end
      | None => Ok ([], [])
      end
  end.

Section Pipeline.
Context `{!Extern}.

(** ** [initLogEntry]

    [stamps n] is what the [n]-th call of [time.Now()] inside one run of
    [initLogEntry] returns; the call for a record is made when
    [len(retArray)] records have been appended. *)

Fixpoint initLogEntry_range (stamps : nat -> Time) (srcIP dstIP : net_IP)
    (question reply : DNS) (answers : list DNSResourceRecord.t)
    (retArray : list dnsLogEntry) : result (list dnsLogEntry) :=
  match answers with
  | [] => Ok retArray
  | answer :: rest =>
      qName ← index0 (Questions question);
      qType ← index0 (Questions question);
      let tmpEntry :=
        {| Query_ID := ID reply;
           Question := string_of_list_byte (DNSQuestion.Name qName);
           Response_Code := ResponseCode reply;
           Question_Type := TypeString (DNSQuestion.Type_ qType);
           Answer := RrString answer;
           Answer_Type := TypeString (DNSResourceRecord.Type_ answer);
           TTL := DNSResourceRecord.TTL answer;
           Server := srcIP;
           Client := dstIP;
           Timestamp := Format_RFC3339 (stamps (length retArray));
           encoded := None;
           err := None |} in
      initLogEntry_range stamps srcIP dstIP question reply rest (retArray ++ [tmpEntry])
  end.

Definition initLogEntry (stamps : nat -> Time) (srcIP dstIP : net_IP)
    (question reply : DNS) : result (list dnsLogEntry) :=
  let retArray : list dnsLogEntry := [] in
  if negb (ResponseCode reply =? 0) then
    qName ← index0 (Questions question);
    qType ← index0 (Questions question);
    let tmpEntry :=
      {| Query_ID := ID reply;
         Question := string_of_list_byte (DNSQuestion.Name qName);
         Response_Code := ResponseCode reply;
         Question_Type := TypeString (DNSQuestion.Type_ qType);
         Answer := ResponseCode_String (ResponseCode reply);
         Answer_Type := "";
         TTL := 0;
         Server := srcIP;
         Client := dstIP;
         Timestamp := Format_RFC3339 (stamps (length retArray));
         encoded := None;
         err := None |} in
    Ok (retArray ++ [tmpEntry])
  else
    initLogEntry_range stamps srcIP dstIP question reply (Answers reply) retArray.

(** ** [getDnsLayer] *)

(** The loop over [packet.Layers()] of the TCP branch. *)
Fixpoint getDnsLayer_range (layers : list Layer) : result (option DNS) :=
  match layers with
  | [] => Ok None
  | layer :: rest =>
      if String.eqb (LayerType_String (Layer_LayerType layer)) "Payload" then
        data ← slice_from 2 (LayerContents layer);
        match NewPacket_DNS data with
        | Some dnsP =>
            first ← index0 (Layers dnsP);
            match first with
            | DNSLayer dns _ => Ok (Some dns)
            | _ => Panic InterfaceConversion
            end
        | None => Ok None
        end
      else getDnsLayer_range rest
  end.

Definition getDnsLayer (packet : Packet) : result (option DNS) :=
  match Packet_Layer packet LayerTypeUDP with
  | Some udpLayer =>
      match Packet_Layer packet LayerTypeDNS with
      | Some dnsLayer =>
          match dnsLayer with
          | DNSLayer dns _ => Ok (Some dns)
          | _ => Panic InterfaceConversion
          end
      | None => Ok None
      end
  | None =>
      match Packet_Layer packet LayerTypeTCP with
      | Some tcpLayer => getDnsLayer_range (Layers packet)
      | None => Ok None
      end
  end.

(** ** [handlePacket]: the body of the loop over the packet channel

    Returns the table after the packet and the entries sent on [logC].
    [now] is the [time.Now()] of the question branch. *)
Definition handlePacket (conntable : conntable_t) (now : Time) (stamps : nat -> Time)
    (packet : Packet) : result (conntable_t * list dnsLogEntry) :=
  '(srcIP, dstIP) ← getIpaddrs packet;
  dns ← getDnsLayer packet;
  match dns with
  | None => Ok (conntable, [])
  | Some dns =>
      if negb (OpCode dns =? DNSOpCodeQuery) then Ok (conntable, [])
      else
        let item := conntable !! ID dns in
        match QR dns, item with
        | true, Some item =>
            let question := entry item in
            let conntable := delete (ID question) conntable in
            logEntries ← initLogEntry stamps srcIP dstIP question dns;
            Ok (conntable, logEntries)
        | true, None => Ok (conntable, [])
        | false, _ =>
            let mapEntry := {| entry := dns; inserted := now |} in
            Ok (<[ID dns := mapEntry]> conntable, [])
        end
  end.

(** ** [doCapture]: the worker a packet is sent to *)

(** [int(h)] for a [uint64] [h], on a platform with 64-bit [int]: values
    from [2^63] on wrap to negative numbers. *)
Definition int_of_uint64 (h : Z) : Z :=
  if h <? 2 ^ 63 then h else h - 2 ^ 64.

Definition doCapture_worker (packet : Packet) : option Z :=
  match Packet_NetworkLayer packet with
  | Some net => Some (Z.land (int_of_uint64 (FastHash (NetworkFlow net))) 7)
  | None => None
  end.

(** ** One worker over time

    A worker's table is touched by its packet loop and by its collector,
    two goroutines that share the map without a lock.  Here one loop body
    of either runs to its end before the next one starts, in the order of
    the trace; what the Go run time does when both touch the map at once
    is outside this model. *)

Inductive event : Type :=
| Arrive (packet : Packet) (now : Time) (stamps : nat -> Time)
| Wake (now : Time).

Definition event_time (ev : event) : Time :=
  match ev with
  | Arrive _ now _ => now
  | Wake now => now
  end.

Definition step (gcAge : Duration) (conntable : conntable_t) (ev : event)
  : result (conntable_t * list dnsLogEntry) :=
  match ev with
  | Arrive packet now stamps => handlePacket conntable now stamps packet
  | Wake now => Ok (cleanDnsCache conntable gcAge now, [])
  end.

Fixpoint run (gcAge : Duration) (conntable : conntable_t) (evs : list event)
  : result (conntable_t * list dnsLogEntry) :=
  match evs with
  | [] => Ok (conntable, [])
  | ev :: rest =>
      '(conntable, out) ← step gcAge conntable ev;
      '(conntable, out') ← run gcAge conntable rest;
      Ok (conntable, out ++ out')
  end.

End Pipeline.

(** ** Invariants of the table *)

(** Every entry was inserted at or after [cutoff]. *)
Definition inserted_since (cutoff : Time) (conntable : conntable_t) : Prop :=
  forall k e, conntable !! k = Some e -> cutoff <= inserted e.

(** Every entry is stored under the ID of the question it holds, so the
    [delete(conntable, question.ID)] of the answer branch deletes the key
    that was looked up. *)
Definition keyed_by_ID (conntable : conntable_t) : Prop :=
  forall k e, conntable !! k = Some e -> ID (entry e) = k.

(** ** A concrete instance of the libraries, and sample traffic

    The theorems below hold for every [Extern].  This instance is the one
    they are run on: dotted-decimal addresses, the rcode names of RFC 1035,
    instants printed as numerals, a decoder of the twelve-octet DNS header,
    and an FNV-style flow hash that adds the hashes of both endpoints. *)

Definition sample_IP_String (ip : net_IP) : string :=
  String.concat "." (map (fun b => Itoa (Z.of_N (Byte.to_N b))) ip).

Definition sample_ResponseCode_String (rc : Z) : string :=
  if rc =? 0 then "No Error"
  else if rc =? 1 then "Format Error"
  else if rc =? 2 then "Server Failure"
  else if rc =? 3 then "Non-Existent Domain"
  else if rc =? 4 then "Not Implemented"
  else if rc =? 5 then "Query Refused"
  else "Unknown".

Definition byteZ (b : byte) : Z := Z.of_N (Byte.to_N b).

Definition sample_NewPacket_DNS (data : list byte) : option Packet :=
  match data with
  | i1 :: i0 :: f1 :: f0 :: _ :: _ :: _ :: _ :: _ :: _ :: _ :: _ :: _ =>
      Some {| Layers :=
                [DNSLayer {| ID := byteZ i1 * 256 + byteZ i0;
                             QR := Z.testbit (byteZ f1) 7;
                             OpCode := Z.land (Z.shiftr (byteZ f1) 3) 15;
                             ResponseCode := Z.land (byteZ f0) 15;
                             Questions := [];
                             Answers := [] |} data] |}
  | _ => Some {| Layers := [DecodeFailureLayer data] |}
  end.

Definition fnvBasis : Z := 14695981039346656037.
Definition fnvPrime : Z := 1099511628211.

Definition fnvHash (s : list byte) : Z :=
  fold_left (fun h b => (Z.lxor h (byteZ b) * fnvPrime) mod 2 ^ 64) s fnvBasis.

Definition sample_EndpointType (t : LayerType) : Z :=
  match t with
  | LayerTypeIPv4 => 2
  | LayerTypeIPv6 => 3
  | _ => 0
  end.

Definition sample_FastHash (a : Flow) : Z :=
  let h := (fnvHash (Src a) + fnvHash (Dst a)) mod 2 ^ 64 in
  let h := Z.lxor h (sample_EndpointType (EndpointType a)) in
  (h * fnvPrime) mod 2 ^ 64.

Definition sample_Extern : Extern :=
  {| IP_String := sample_IP_String;
     ResponseCode_String := sample_ResponseCode_String;
     Format_RFC3339 := Itoa;
     NewPacket_DNS := sample_NewPacket_DNS;
     FastHash := sample_FastHash |}.

Definition client_IP : net_IP := [x0a; x00; x00; x05].
Definition server_IP : net_IP := [x08; x08; x08; x08].

Definition example_com : list byte := list_byte_of_string "example.com".

Definition no_SOA : DNSSOA.t := DNSSOA.mk [] [].
Definition no_SRV : DNSSRV.t := DNSSRV.mk 0 0 0 [].
Definition no_MX : DNSMX.t := DNSMX.mk 0 [].

(** An A record for 93.184.216.34 with a TTL of an hour. *)
Definition sample_A : DNSResourceRecord.t :=
  DNSResourceRecord.mk example_com DNSTypeA 1 3600 [x5d; xb8; xd8; x22]
    [x5d; xb8; xd8; x22] [] [] [] [] no_SOA no_SRV no_MX.

Definition sample_query : DNS :=
  {| ID := 4660; QR := false; OpCode := DNSOpCodeQuery; ResponseCode := 0;
     Questions := [DNSQuestion.mk example_com DNSTypeA 1]; Answers := [] |}.

(** A second question that reuses the transaction ID of [sample_query]. *)
Definition sample_query' : DNS :=
  {| ID := 4660; QR := false; OpCode := DNSOpCodeQuery; ResponseCode := 0;
     Questions := [DNSQuestion.mk (list_byte_of_string "example.org") DNSTypeAAAA 1];
     Answers := [] |}.

Definition sample_reply : DNS :=
  {| ID := 4660; QR := true; OpCode := DNSOpCodeQuery; ResponseCode := 0;
     Questions := [DNSQuestion.mk example_com DNSTypeA 1]; Answers := [sample_A] |}.

Definition sample_nxdomain : DNS :=
  {| ID := 4660; QR := true; OpCode := DNSOpCodeQuery; ResponseCode := 3;
     Questions := [DNSQuestion.mk example_com DNSTypeA 1]; Answers := [] |}.

(** A question with an empty question section (QDCOUNT = 0). *)
Definition sample_noquestion : DNS :=
  {| ID := 4660; QR := false; OpCode := DNSOpCodeQuery; ResponseCode := 0;
     Questions := []; Answers := [] |}.

(** A successful reply without answers. *)
Definition sample_empty_reply : DNS :=
  {| ID := 4660; QR := true; OpCode := DNSOpCodeQuery; ResponseCode := 0;
     Questions := []; Answers := [] |}.

(** A dynamic update (opcode 5). *)
Definition sample_update : DNS :=
  {| ID := 4660; QR := false; OpCode := 5; ResponseCode := 0;
     Questions := [DNSQuestion.mk example_com DNSTypeSOA 1]; Answers := [] |}.

Definition udp_packet (src dst : net_IP) (dns : DNS) : Packet :=
  {| Layers := [EthernetLayer []; IPv4Layer src dst []; UDPLayer []; DNSLayer dns []] |}.

Definition tcp_packet (src dst : net_IP) (payload : list byte) : Packet :=
  {| Layers := [EthernetLayer []; IPv4Layer src dst []; TCPLayer []; PayloadLayer payload] |}.

Definition arp_packet : Packet := {| Layers := [EthernetLayer []] |}.

Definition stamps0 : nat -> Time := fun n => 1000 + Z.of_nat n.

(** ** [ensureEncoded], [Length], [Encode]

    The methods have a pointer receiver: each returns the entry as it is
    after the call next to its result.  [json.Marshal] is a library
    function; a nil slice and a nil error are [None]. *)

Class Json : Type := {
  json_Marshal : dnsLogEntry -> option (list byte) * option string
}.

Section Encoding.
Context `{!Json}.

Definition ensureEncoded (dle : dnsLogEntry) : dnsLogEntry :=
  match encoded dle, err dle with
  | None, None =>
      let '(enc, er) := json_Marshal dle in
      {| Query_ID := Query_ID dle;
         Response_Code := Response_Code dle;
         Question := Question dle;
         Question_Type := Question_Type dle;
         Answer := Answer dle;
         Answer_Type := Answer_Type dle;
         TTL := TTL dle;
         Server := Server dle;
         Client := Client dle;
         Timestamp := Timestamp dle;
         encoded := enc;
         err := er |}
  | _, _ => dle
  end.

(** [len(b)] of a slice that may be nil. *)
Definition len_bytes (b : option (list byte)) : Z :=
  match b with
  | Some l => Z.of_nat (length l)
  | None => 0
  end.

Definition Length (dle : dnsLogEntry) : Z * dnsLogEntry :=
  let dle := ensureEncoded dle in
  (len_bytes (encoded dle), dle).

Definition Encode (dle : dnsLogEntry)
  : (option (list byte) * option string) * dnsLogEntry :=
  let dle := ensureEncoded dle in
  ((encoded dle, err dle), dle).

End Encoding.

(** ** [logConn]: the sinks set up and the messages sent to them *)

Inductive sink : Type :=
| stdoutChan
| fileChan (filename : string)
| kafkaChan (kafkaBrokers kafkaTopic : string).

#[global] Instance sink_eq_dec : EqDecision sink.
Proof. solve_decision. Defined.

Definition logConn_logs (quiet : bool) (filename kafkaBrokers kafkaTopic : string)
  : list sink :=
  let logs : list sink := [] in
  let logs := if negb quiet then logs ++ [stdoutChan] else logs in
  let logs := if negb (String.eqb filename "") then logs ++ [fileChan filename] else logs in
  let logs :=
    if negb (String.eqb kafkaBrokers "") && negb (String.eqb kafkaTopic "") && false
    then logs ++ [kafkaChan kafkaBrokers kafkaTopic]
    else logs in
  logs.

(** The sends of the dispatch loop, in the order they are made. *)
Definition logConn_sends (logs : list sink) (logC : list dnsLogEntry)
  : list (sink * dnsLogEntry) :=
  flat_map (fun message => map (fun logChan => (logChan, message)) logs) logC.

(** What a sink receives. *)
Definition received (logChan : sink) (sends : list (sink * dnsLogEntry))
  : list dnsLogEntry :=
  map snd (filter (fun send => send.1 = logChan) sends).

(** ** [doCapture]: the dispatch loop over the packet source

    [channels] holds, for each of the eight workers, the packets sent to it
    so far. *)

(** [channels[i] <- packet] *)
Definition channels_send (channels : list (list Packet)) (i : Z) (packet : Packet)
  : result (list (list Packet)) :=
  if (0 <=? i) && (i <? Z.of_nat (length channels))
  then Ok (alter (fun sent => sent ++ [packet]) (Z.to_nat i) channels)
  else Panic IndexOutOfRange.

Section Dispatch.
Context `{!Extern}.

Fixpoint doCapture_range (channels : list (list Packet)) (packets : list Packet)
  : result (list (list Packet)) :=
  match packets with
  | [] => Ok channels
  | packet :: rest =>
      match Packet_NetworkLayer packet with
      | Some net =>
          channels ← channels_send channels
                       (Z.land (int_of_uint64 (FastHash (NetworkFlow net))) 7) packet;
          doCapture_range channels rest
      | None => doCapture_range channels rest
      end
  end.

Definition doCapture_dispatch (packets : list Packet) : result (list (list Packet)) :=
  doCapture_range (replicate 8 []) packets.

(** The ways the payload of a TCP packet makes [getDnsLayer] panic. *)
Definition payload_panics (contents : list byte) (p : panic) : Prop :=
  ((length contents < 2)%nat /\ p = SliceBoundsOutOfRange)
  \/ ((2 <= length contents)%nat
      /\ exists dnsP,
           NewPacket_DNS (drop 2 contents) = Some dnsP
           /\ ((Layers dnsP = [] /\ p = IndexOutOfRange)
               \/ exists first rest,
                    Layers dnsP = first :: rest
                    /\ Layer_LayerType first <> LayerTypeDNS
                    /\ p = InterfaceConversion)).

(** An event that cannot remove or replace the entry stored under [k] at
    time [T]: a packet without a DNS message or with another ID, or a
    wake-up of the collector whose cutoff is not after [T]. *)
Definition leaves_alone (gcAge : Duration) (k : Z) (T : Time) (ev : event) : Prop :=
  match ev with
  | Arrive packet _ _ =>
      getDnsLayer packet = Ok None
      \/ exists dns, getDnsLayer packet = Ok (Some dns) /\ ID dns <> k
  | Wake now => now + gcAge <= T
  end.

(** A packet the worker survives whatever is in a table of well-formed
    questions: extraction does not panic, and a question has a question
    section. *)
Definition harmless (ev : event) : Prop :=
  match ev with
  | Arrive packet _ _ =>
      getDnsLayer packet = Ok None
      \/ exists dns, getDnsLayer packet = Ok (Some dns)
                     /\ (QR dns = false -> Questions dns <> [])
  | Wake _ => True
  end.

(** The IDs of the DNS messages of a packet fit sixteen bits. *)
Definition uint16_ID (ev : event) : Prop :=
  match ev with
  | Arrive packet _ _ =>
      forall dns, getDnsLayer packet = Ok (Some dns) -> 0 <= ID dns < 65536
  | Wake _ => True
  end.

End Dispatch.

(** Every stored question has a question section. *)
Definition questions_nonempty (conntable : conntable_t) : Prop :=
  forall k e, conntable !! k = Some e -> Questions (entry e) <> [].

(** Every key fits sixteen bits. *)
Definition keys_uint16 (conntable : conntable_t) : Prop :=
  forall k e, conntable !! k = Some e -> 0 <= k < 65536.

(** A sample encoder for the witnesses: the question name as the bytes, and
    an error for an entry without a question name. *)
Definition sample_Json : Json :=
  {| json_Marshal := fun dle =>
       if String.eqb (Question dle) ""
       then (None, Some "unsupported value")
       else (Some (list_byte_of_string (Question dle)), None) |}.

Definition sample_entry : dnsLogEntry :=
  {| Query_ID := 4660; Response_Code := 0;
     Question := "example.com"; Question_Type := "A";
     Answer := "93.184.216.34"; Answer_Type := "A"; TTL := 3600;
     Server := server_IP; Client := client_IP;
     Timestamp := "1000"; encoded := None; err := None |}.

(** A question with another transaction ID. *)
Definition other_query : DNS :=
  {| ID := 7; QR := false; OpCode := DNSOpCodeQuery; ResponseCode := 0;
     Questions := [DNSQuestion.mk example_com DNSTypeMX 1]; Answers := [] |}.

(** * Properties *)

(** ** Numerals *)

(** The numeral printed by [Itoa] reads back as the number. *)
Lemma Itoa_reads_back (i : Z) :
  option_map Z.of_int (NilZero.int_of_string (Itoa i)) = Some i.
Proof.
  unfold Itoa. rewrite NilZero.isi.
  - cbn. by rewrite DecimalZ.of_to.
  - destruct i as [|p|p]; cbn; [discriminate| |discriminate].
    intros [= Hnil]. by apply DecimalPos.Unsigned.to_uint_nonnil in Hnil.
  - destruct i as [|p|p]; cbn; [discriminate|discriminate|].
    intros [= Hnil]. by apply DecimalPos.Unsigned.to_uint_nonnil in Hnil.
Qed.

(** ** Layers found by type *)

Lemma Packet_Layer_type (packet : Packet) (t : LayerType) (l : Layer) :
  Packet_Layer packet t = Some l -> Layer_LayerType l = t.
Proof.
  unfold Packet_Layer. intros Hfind.
  apply List.find_some in Hfind as [_ Hdec].
  by apply bool_decide_eq_true in Hdec.
Qed.

(** The type assertions of [getIpaddrs] never fail. *)
Lemma getIpaddrs_total (packet : Packet) :
  exists srcIP dstIP, getIpaddrs packet = Ok (srcIP, dstIP).
Proof.
  unfold getIpaddrs.
  destruct (Packet_Layer packet LayerTypeIPv4) as [l4|] eqn:H4.
  - apply Packet_Layer_type in H4. destruct l4; try discriminate. eauto.
  - destruct (Packet_Layer packet LayerTypeIPv6) as [l6|] eqn:H6.
    + apply Packet_Layer_type in H6. destruct l6; try discriminate. eauto.
    + eauto.
Qed.

(** ** The collector *)

Lemma sweep_fold_lookup (cutoff : Time) (b m : conntable_t) (k : Z) :
  map_fold (fun key item tbl =>
              if Time_Before (inserted item) cutoff then delete key tbl else tbl) b m !! k
  = match m !! k with
    | Some e => if Time_Before (inserted e) cutoff then None else b !! k
    | None => b !! k
    end.
Proof.
  revert k.
  apply (map_fold_weak_ind (fun (r : conntable_t) (m' : conntable_t) =>
    forall k, r !! k = match m' !! k with
                       | Some e => if Time_Before (inserted e) cutoff then None else b !! k
                       | None => b !! k
                       end)).
  - intros k. by rewrite lookup_empty.
  - intros i x m' r Hfresh IH k.
    destruct (decide (k = i)) as [->|Hne].
    + rewrite lookup_insert_eq.
      destruct (Time_Before (inserted x) cutoff).
      * apply lookup_delete_eq.
      * rewrite IH, Hfresh. reflexivity.
    + rewrite lookup_insert_ne by congruence.
      destruct (Time_Before (inserted x) cutoff).
      * rewrite lookup_delete_ne by congruence. apply IH.
      * apply IH.
Qed.

(** After a wake-up, an entry is there exactly when it was there before and
    was not inserted before the cutoff. *)
Lemma cleanDnsCache_lookup (conntable : conntable_t) (maxAge : Duration) (now : Time) (k : Z) :
  cleanDnsCache conntable maxAge now !! k
  = match conntable !! k with
    | Some e => if Time_Before (inserted e) (Time_Add now maxAge) then None else Some e
    | None => None
    end.
Proof.
  unfold cleanDnsCache. cbv zeta. rewrite sweep_fold_lookup.
  destruct (conntable !! k); reflexivity.
Qed.

Lemma cleanDnsCache_filter (conntable : conntable_t) (maxAge : Duration) (now : Time) :
  cleanDnsCache conntable maxAge now
  = filter (fun kv => ¬ (inserted kv.2 < now + maxAge)) conntable.
Proof.
  apply map_eq. intros k.
  rewrite cleanDnsCache_lookup, map_lookup_filter.
  unfold Time_Before, Time_Add.
  destruct (conntable !! k) as [e|]; simpl; [|reflexivity].
  destruct (Z.ltb_spec (inserted e) (now + maxAge)).
  - rewrite option_guard_False; [reflexivity|]. simpl. lia.
  - rewrite option_guard_True; [reflexivity|]. simpl. lia.
Qed.

Lemma cleanDnsCache_inserted_since (conntable : conntable_t) (maxAge : Duration) (now : Time) :
  inserted_since (now + maxAge) (cleanDnsCache conntable maxAge now).
Proof.
  intros k e. rewrite cleanDnsCache_lookup.
  destruct (conntable !! k) as [e'|]; [|discriminate].
  unfold Time_Before, Time_Add.
  destruct (Z.ltb_spec (inserted e') (now + maxAge)); [discriminate|].
  intros [= <-]. assumption.
Qed.

Lemma cleanDnsCache_keeps_since (cutoff : Time) (conntable : conntable_t)
    (maxAge : Duration) (now : Time) :
  inserted_since cutoff conntable ->
  inserted_since cutoff (cleanDnsCache conntable maxAge now).
Proof.
  intros Hinv k e. rewrite cleanDnsCache_lookup.
  destruct (conntable !! k) as [e'|] eqn:Hk; [|discriminate].
  destruct (Time_Before _ _); [discriminate|].
  intros [= <-]. eauto.
Qed.


(** ** The packet loop *)

Section Worker.
Context `{!Extern}.

Lemma handlePacket_no_dns (conntable : conntable_t) now stamps packet :
  getDnsLayer packet = Ok None ->
  handlePacket conntable now stamps packet = Ok (conntable, []).
Proof.
  intros Hdns. unfold handlePacket.
  destruct (getIpaddrs_total packet) as (srcIP & dstIP & ->).
  simpl. rewrite Hdns. reflexivity.
Qed.

Lemma handlePacket_other_opcode (conntable : conntable_t) now stamps packet dns :
  getDnsLayer packet = Ok (Some dns) ->
  OpCode dns <> DNSOpCodeQuery ->
  handlePacket conntable now stamps packet = Ok (conntable, []).
Proof.
  intros Hdns Hop. unfold handlePacket.
  destruct (getIpaddrs_total packet) as (srcIP & dstIP & ->).
  simpl. rewrite Hdns. simpl.
  destruct (Z.eqb_spec (OpCode dns) DNSOpCodeQuery); [contradiction|reflexivity].
Qed.

Lemma handlePacket_question (conntable : conntable_t) now stamps packet dns :
  getDnsLayer packet = Ok (Some dns) ->
  OpCode dns = DNSOpCodeQuery ->
  QR dns = false ->
  handlePacket conntable now stamps packet
  = Ok (<[ID dns := {| entry := dns; inserted := now |}]> conntable, []).
Proof.
  intros Hdns Hop Hqr. unfold handlePacket.
  destruct (getIpaddrs_total packet) as (srcIP & dstIP & ->).
  simpl. rewrite Hdns. simpl. rewrite Hop, Hqr. reflexivity.
Qed.

Lemma handlePacket_answer_missing (conntable : conntable_t) now stamps packet dns :
  getDnsLayer packet = Ok (Some dns) ->
  QR dns = true ->
  conntable !! ID dns = None ->
  handlePacket conntable now stamps packet = Ok (conntable, []).
Proof.
  intros Hdns Hqr Hmiss. unfold handlePacket.
  destruct (getIpaddrs_total packet) as (srcIP & dstIP & ->).
  simpl. rewrite Hdns. simpl. rewrite Hqr, Hmiss.
  destruct (negb _); reflexivity.
Qed.

Lemma handlePacket_answer_found (conntable : conntable_t) now stamps packet dns
    item srcIP dstIP :
  getIpaddrs packet = Ok (srcIP, dstIP) ->
  getDnsLayer packet = Ok (Some dns) ->
  OpCode dns = DNSOpCodeQuery ->
  QR dns = true ->
  conntable !! ID dns = Some item ->
  handlePacket conntable now stamps packet
  = (logEntries ← initLogEntry stamps srcIP dstIP (entry item) dns;
     Ok (delete (ID (entry item)) conntable, logEntries)).
Proof.
  intros Hip Hdns Hop Hqr Hfound. unfold handlePacket.
  rewrite Hip. simpl. rewrite Hdns. simpl. rewrite Hop, Hqr, Hfound. reflexivity.
Qed.

(** What a packet can do to the table: nothing, store a question under its
    own ID, or delete one key. *)
Lemma handlePacket_table (conntable conntable' : conntable_t) now stamps packet out :
  handlePacket conntable now stamps packet = Ok (conntable', out) ->
  conntable' = conntable
  \/ (exists dns, QR dns = false /\ out = []
        /\ conntable' = <[ID dns := {| entry := dns; inserted := now |}]> conntable)
  \/ (exists item dns, QR dns = true /\ conntable !! ID dns = Some item
        /\ conntable' = delete (ID (entry item)) conntable).
Proof.
  unfold handlePacket.
  destruct (getIpaddrs_total packet) as (srcIP & dstIP & ->). simpl.
  destruct (getDnsLayer packet) as [[dns|]|]; simpl; [| |discriminate].
  - destruct (negb _).
    + intros [= <- <-]. by left.
    + destruct (QR dns) eqn:Hqr.
      * destruct (conntable !! ID dns) as [item|] eqn:Hfound.
        -- destruct (initLogEntry _ _ _ _ _); simpl; [|discriminate].
           intros [= <- <-]. right. right. eauto.
        -- intros [= <- <-]. by left.
      * intros [= <- <-]. right. left. eauto.
  - intros [= <- <-]. by left.
Qed.

Lemma handlePacket_keyed (conntable conntable' : conntable_t) now stamps packet out :
  keyed_by_ID conntable ->
  handlePacket conntable now stamps packet = Ok (conntable', out) ->
  keyed_by_ID conntable'.
Proof.
  intros Hinv Hstep.
  destruct (handlePacket_table _ _ _ _ _ _ Hstep)
    as [->|[(dns & _ & _ & ->)|(item & dns & _ & _ & ->)]]; [assumption| |].
  - intros k e. destruct (decide (ID dns = k)) as [<-|Hne].
    + rewrite lookup_insert_eq. by intros [= <-].
    + rewrite lookup_insert_ne by assumption. apply Hinv.
  - intros k e Hk. apply lookup_delete_Some in Hk as [_ Hk]. by apply Hinv.
Qed.

Lemma cleanDnsCache_keyed (conntable : conntable_t) maxAge now :
  keyed_by_ID conntable -> keyed_by_ID (cleanDnsCache conntable maxAge now).
Proof.
  intros Hinv k e. rewrite cleanDnsCache_lookup.
  destruct (conntable !! k) as [e'|] eqn:Hk; [|discriminate].
  destruct (Time_Before _ _); [discriminate|].
  intros [= <-]. by apply Hinv.
Qed.

Lemma run_keyed (gcAge : Duration) (conntable conntable' : conntable_t) evs out :
  keyed_by_ID conntable ->
  run gcAge conntable evs = Ok (conntable', out) ->
  keyed_by_ID conntable'.
Proof.
  revert conntable out. induction evs as [|ev evs IH]; intros conntable out Hinv.
  - cbn. by intros [= <- <-].
  - cbn [run]. destruct (step gcAge conntable ev) as [[mid o1]|] eqn:Hstep; cbn;
      [|discriminate].
    destruct (run gcAge mid evs) as [[fin o2]|] eqn:Hrest; cbn; [|discriminate].
    intros [= <- <-]. eapply IH; [|exact Hrest].
    destruct ev as [packet now stamps|now]; cbn in Hstep.
    + eapply handlePacket_keyed; eauto.
    + injection Hstep as <- <-. by apply cleanDnsCache_keyed.
Qed.

Lemma handlePacket_inserted_since (cutoff : Time) (conntable conntable' : conntable_t)
    now stamps packet out :
  cutoff <= now ->
  inserted_since cutoff conntable ->
  handlePacket conntable now stamps packet = Ok (conntable', out) ->
  inserted_since cutoff conntable'.
Proof.
  intros Hnow Hinv Hstep.
  destruct (handlePacket_table _ _ _ _ _ _ Hstep)
    as [->|[(dns & _ & _ & ->)|(item & dns & _ & _ & ->)]]; [assumption| |].
  - intros k e. destruct (decide (ID dns = k)) as [<-|Hne].
    + rewrite lookup_insert_eq. by intros [= <-].
    + rewrite lookup_insert_ne by assumption. apply Hinv.
  - intros k e Hk. apply lookup_delete_Some in Hk as [_ Hk]. by eapply Hinv.
Qed.

Lemma step_inserted_since (gcAge : Duration) (cutoff : Time)
    (conntable conntable' : conntable_t) ev out :
  cutoff <= event_time ev ->
  inserted_since cutoff conntable ->
  step gcAge conntable ev = Ok (conntable', out) ->
  inserted_since cutoff conntable'.
Proof.
  destruct ev as [packet now stamps|now]; simpl; intros Hnow Hinv Hstep.
  - eapply handlePacket_inserted_since; eauto.
  - injection Hstep as <- <-. by apply cleanDnsCache_keeps_since.
Qed.

Lemma run_cons (gcAge : Duration) (conntable conntable' : conntable_t) ev evs out :
  run gcAge conntable (ev :: evs) = Ok (conntable', out) ->
  exists mid out1 out2,
    step gcAge conntable ev = Ok (mid, out1)
    /\ run gcAge mid evs = Ok (conntable', out2)
    /\ out = out1 ++ out2.
Proof.
  cbn [run]. destruct (step gcAge conntable ev) as [[mid out1]|]; cbn; [|discriminate].
  destruct (run gcAge mid evs) as [[fin out2]|] eqn:Hrest; cbn; [|discriminate].
  intros [= <- <-]. exists mid, out1, out2. auto.
Qed.

Lemma run_app (gcAge : Duration) (conntable conntable' : conntable_t) evs1 evs2 out :
  run gcAge conntable (evs1 ++ evs2) = Ok (conntable', out) ->
  exists mid out1 out2,
    run gcAge conntable evs1 = Ok (mid, out1)
    /\ run gcAge mid evs2 = Ok (conntable', out2)
    /\ out = out1 ++ out2.
Proof.
  revert conntable out. induction evs1 as [|ev evs1 IH]; intros conntable out Hrun.
  - exists conntable, [], out. simpl. auto.
  - rewrite <- app_comm_cons in Hrun.
    apply run_cons in Hrun as (mid & o1 & o2 & Hstep & Hrest & ->).
    apply IH in Hrest as (mid' & o1' & o2' & Hrun1 & Hrun2 & ->).
    exists mid', (o1 ++ o1'), o2'. simpl. rewrite Hstep. simpl. rewrite Hrun1. simpl.
    split; [reflexivity|]. split; [assumption|]. by rewrite app_assoc.
Qed.

Lemma run_inserted_since (gcAge : Duration) (cutoff : Time)
    (conntable conntable' : conntable_t) evs out :
  Forall (fun ev => cutoff <= event_time ev) evs ->
  inserted_since cutoff conntable ->
  run gcAge conntable evs = Ok (conntable', out) ->
  inserted_since cutoff conntable'.
Proof.
  intros Hlate. revert conntable out.
  induction Hlate as [|ev evs Hev _ IH]; intros conntable out Hinv Hrun.
  - simpl in Hrun. by injection Hrun as <- <-.
  - apply run_cons in Hrun as (mid & o1 & o2 & Hstep & Hrest & ->).
    eapply IH; [|exact Hrest]. eapply step_inserted_since; eauto.
Qed.


(** ** The record builder *)

Lemma initLogEntry_range_nonempty stamps srcIP dstIP question reply q0 qs answers retArray :
  Questions question = q0 :: qs ->
  initLogEntry_range stamps srcIP dstIP question reply answers retArray
  = Ok (retArray ++
        imap (fun i answer =>
                {| Query_ID := ID reply;
                   Response_Code := ResponseCode reply;
                   Question := string_of_list_byte (DNSQuestion.Name q0);
                   Question_Type := TypeString (DNSQuestion.Type_ q0);
                   Answer := RrString answer;
                   Answer_Type := TypeString (DNSResourceRecord.Type_ answer);
                   TTL := DNSResourceRecord.TTL answer;
                   Server := srcIP;
                   Client := dstIP;
                   Timestamp := Format_RFC3339 (stamps (length retArray + i)%nat);
                   encoded := None;
                   err := None |}) answers).
Proof.
  intros Hq. revert retArray.
  induction answers as [|answer rest IH]; intros retArray.
  - simpl. by rewrite app_nil_r.
  - cbn [initLogEntry_range]. rewrite Hq. cbn. rewrite IH.
    rewrite <- app_assoc. cbn. rewrite Nat.add_0_r.
    do 3 f_equal. apply imap_ext. intros i x _. cbn.
    rewrite length_app. cbn. do 3 f_equal. lia.
Qed.

Lemma initLogEntry_range_empty stamps srcIP dstIP question reply answer rest retArray :
  Questions question = [] ->
  initLogEntry_range stamps srcIP dstIP question reply (answer :: rest) retArray
  = Panic IndexOutOfRange.
Proof. intros Hq. cbn [initLogEntry_range]. rewrite Hq. reflexivity. Qed.

Lemma initLogEntry_failure stamps srcIP dstIP question reply q0 qs :
  Questions question = q0 :: qs ->
  ResponseCode reply <> 0 ->
  initLogEntry stamps srcIP dstIP question reply
  = Ok [ {| Query_ID := ID reply;
            Response_Code := ResponseCode reply;
            Question := string_of_list_byte (DNSQuestion.Name q0);
            Question_Type := TypeString (DNSQuestion.Type_ q0);
            Answer := ResponseCode_String (ResponseCode reply);
            Answer_Type := "";
            TTL := 0;
            Server := srcIP;
            Client := dstIP;
            Timestamp := Format_RFC3339 (stamps 0%nat);
            encoded := None;
            err := None |} ].
Proof.
  intros Hq Hrc. unfold initLogEntry.
  destruct (Z.eqb_spec (ResponseCode reply) 0); [contradiction|].
  cbn. rewrite Hq. reflexivity.
Qed.

Lemma initLogEntry_success stamps srcIP dstIP question reply :
  ResponseCode reply = 0 ->
  initLogEntry stamps srcIP dstIP question reply
  = initLogEntry_range stamps srcIP dstIP question reply (Answers reply) [].
Proof. intros Hrc. unfold initLogEntry. rewrite Hrc. reflexivity. Qed.

(** When [initLogEntry] returns at all. *)
Lemma initLogEntry_cases stamps srcIP dstIP question reply :
  (Questions question <> [] \/ (ResponseCode reply = 0 /\ Answers reply = [])) /\
    is_Ok (initLogEntry stamps srcIP dstIP question reply)
  \/ (Questions question = [] /\ (ResponseCode reply <> 0 \/ Answers reply <> [])) /\
    initLogEntry stamps srcIP dstIP question reply = Panic IndexOutOfRange.
Proof.
  destruct (Questions question) as [|q0 qs] eqn:Hq.
  - destruct (Z.eq_dec (ResponseCode reply) 0) as [Hrc|Hrc].
    + rewrite initLogEntry_success by assumption.
      destruct (Answers reply) as [|answer rest].
      * left. split; [by right|]. by eexists.
      * right. split; [split; [done|by right]|]. by apply initLogEntry_range_empty.
    + right. split; [split; [done|by left]|].
      unfold initLogEntry. destruct (Z.eqb_spec (ResponseCode reply) 0); [contradiction|].
      cbn. rewrite Hq. reflexivity.
  - left. split; [by left|].
    destruct (Z.eq_dec (ResponseCode reply) 0) as [Hrc|Hrc].
    + rewrite initLogEntry_success by assumption.
      erewrite initLogEntry_range_nonempty by eassumption. by eexists.
    + erewrite initLogEntry_failure by eassumption. by eexists.
Qed.

(** ** The extractor *)

Lemma getDnsLayer_tcp_packet src dst payload :
  getDnsLayer (tcp_packet src dst payload)
  = (data ← slice_from 2 payload;
     match NewPacket_DNS data with
     | Some dnsP =>
         first ← index0 (Layers dnsP);
         match first with
         | DNSLayer dns _ => Ok (Some dns)
         | _ => Panic InterfaceConversion
         end
     | None => Ok None
     end).
Proof. reflexivity. Qed.

(** The decoder is handed the payload without its first two octets. *)
Lemma getDnsLayer_tcp_skips_prefix src dst l1 l0 msg :
  getDnsLayer (tcp_packet src dst (l1 :: l0 :: msg))
  = match NewPacket_DNS msg with
    | Some dnsP =>
        first ← index0 (Layers dnsP);
        match first with
        | DNSLayer dns _ => Ok (Some dns)
        | _ => Panic InterfaceConversion
        end
    | None => Ok None
    end.
Proof. reflexivity. Qed.

Lemma getDnsLayer_tcp_short src dst payload :
  (length payload < 2)%nat ->
  getDnsLayer (tcp_packet src dst payload) = Panic SliceBoundsOutOfRange.
Proof.
  intros Hlen. rewrite getDnsLayer_tcp_packet. unfold slice_from.
  destruct (Nat.leb_spec 2 (length payload)); [lia|reflexivity].
Qed.

(** A decoded packet whose first layer is not a DNS layer makes the type
    assertion fail. *)
Lemma getDnsLayer_tcp_undecoded src dst l1 l0 msg dnsP first rest :
  NewPacket_DNS msg = Some dnsP ->
  Layers dnsP = first :: rest ->
  Layer_LayerType first <> LayerTypeDNS ->
  getDnsLayer (tcp_packet src dst (l1 :: l0 :: msg)) = Panic InterfaceConversion.
Proof.
  intros Hdec Hlayers Hty. rewrite getDnsLayer_tcp_skips_prefix, Hdec, Hlayers.
  destruct first; try reflexivity. by destruct Hty.
Qed.

(** The TCP branch for any packet: without a UDP layer and with a TCP layer,
    the first layer named Payload decides the result. *)
Lemma getDnsLayer_range_first_payload pre contents post :
  Forall (fun l => Layer_LayerType l <> LayerTypePayload) pre ->
  getDnsLayer_range (pre ++ PayloadLayer contents :: post)
  = (data ← slice_from 2 contents;
     match NewPacket_DNS data with
     | Some dnsP =>
         first ← index0 (Layers dnsP);
         match first with
         | DNSLayer dns _ => Ok (Some dns)
         | _ => Panic InterfaceConversion
         end
     | None => Ok None
     end).
Proof.
  induction 1 as [|l pre Hl _ IH]; [reflexivity|].
  rewrite <- app_comm_cons. cbn [getDnsLayer_range].
  destruct l; try exact IH. by destruct Hl.
Qed.

Lemma getDnsLayer_tcp packet tcpLayer :
  Packet_Layer packet LayerTypeUDP = None ->
  Packet_Layer packet LayerTypeTCP = Some tcpLayer ->
  getDnsLayer packet = getDnsLayer_range (Layers packet).
Proof. intros Hudp Htcp. unfold getDnsLayer. by rewrite Hudp, Htcp. Qed.

(** ** The sharder *)

Lemma int_of_uint64_land7 (h : Z) : Z.land (int_of_uint64 h) 7 = h mod 8.
Proof.
  change 7 with (Z.ones 3). rewrite Z.land_ones by lia.
  unfold int_of_uint64. destruct (h <? 2 ^ 63); [reflexivity|].
  change (2 ^ 64) with (2305843009213693952 * 2 ^ 3).
  rewrite <- Z.add_opp_r, <- Z.mul_opp_l. apply Z_mod_plus_full.
Qed.

Lemma doCapture_worker_flow packet net :
  Packet_NetworkLayer packet = Some net ->
  doCapture_worker packet = Some (FastHash (NetworkFlow net) mod 8).
Proof.
  intros Hnet. unfold doCapture_worker. rewrite Hnet.
  by rewrite int_of_uint64_land7.
Qed.

(** The queues of the workers after the dispatch loop. *)
Lemma doCapture_range_queues (packets : list Packet) (channels : list (list Packet)) :
  length channels = 8%nat ->
  exists channels',
    doCapture_range channels packets = Ok channels'
    /\ length channels' = 8%nat
    /\ forall w : nat,
         channels' !! w
         = (fun sent =>
              sent ++ filter (fun p => doCapture_worker p = Some (Z.of_nat w)) packets)
           <$> channels !! w.
Proof.
  revert channels. induction packets as [|packet rest IH]; intros channels Hlen.
  - exists channels. split; [reflexivity|]. split; [assumption|].
    intros w. destruct (channels !! w); cbn; [|reflexivity]. by rewrite app_nil_r.
  - cbn [doCapture_range].
    destruct (Packet_NetworkLayer packet) as [net|] eqn:Hnet.
    + pose proof (doCapture_worker_flow packet net Hnet) as Hw.
      rewrite int_of_uint64_land7.
      set (i := FastHash (NetworkFlow net) mod 8) in *.
      assert (Hi : 0 <= i < 8) by (apply Z.mod_pos_bound; lia).
      unfold channels_send. rewrite Hlen.
      destruct (Z.leb_spec 0 i); [|lia]. destruct (Z.ltb_spec i (Z.of_nat 8)); [|lia].
      cbn [andb]. unfold mbind, result_bind.
      destruct (IH (alter (fun sent => sent ++ [packet]) (Z.to_nat i) channels))
        as (channels' & Hrun & Hlen' & Hq); [by rewrite length_alter|].
      exists channels'. split; [assumption|]. split; [assumption|].
      intros w. rewrite Hq.
      destruct (decide (Z.to_nat i = w)) as [<-|Hne].
      * rewrite list_lookup_alter_eq.
        rewrite filter_cons_True by (rewrite Hw; f_equal; lia).
        destruct (channels !! Z.to_nat i); cbn; [|reflexivity].
        by rewrite <- app_assoc.
      * rewrite list_lookup_alter_ne by assumption.
        rewrite filter_cons_False; [reflexivity|].
        rewrite Hw. intros [= Heq]. lia.
    + destruct (IH channels Hlen) as (channels' & Hrun & Hlen' & Hq).
      exists channels'. split; [assumption|]. split; [assumption|].
      intros w. rewrite Hq. rewrite filter_cons_False; [reflexivity|].
      unfold doCapture_worker. rewrite Hnet. discriminate.
Qed.

Lemma doCapture_dispatch_queues (packets : list Packet) :
  exists channels,
    doCapture_dispatch packets = Ok channels
    /\ length channels = 8%nat
    /\ forall w : nat, (w < 8)%nat ->
         channels !! w
         = Some (filter (fun p => doCapture_worker p = Some (Z.of_nat w)) packets).
Proof.
  destruct (doCapture_range_queues packets (replicate 8 []))
    as (channels & Hrun & Hlen & Hq); [apply length_replicate|].
  exists channels. split; [exact Hrun|]. split; [assumption|].
  intros w Hw. rewrite Hq, lookup_replicate_2 by assumption. reflexivity.
Qed.

End Worker.

Lemma sample_FastHash_symmetric (f : Flow) :
  sample_FastHash (Flow_Reverse f) = sample_FastHash f.
Proof. unfold sample_FastHash. cbn. by rewrite Z.add_comm. Qed.

(** * The claims *)

Section Claims.
Context `{!Extern}.

(** C1. A table holds at most one pending question per transaction ID.  A
    question whose ID is already in the table replaces the entry that was
    there: the table has the same keys as before and every other key keeps
    its entry.  When two questions with one ID arrive before any answer, the
    next answer with that ID is matched with the second question and removes
    its entry; an answer after that finds nothing and leaves the table as it
    is. *)
Theorem C1_second_question_replaces_first
    (conntable : conntable_t) (p1 p2 p3 p4 : Packet) (q1 q2 r r' : DNS)
    (now1 now2 now3 now4 : Time) (st1 st2 st3 st4 : nat -> Time)
    (srcIP dstIP : net_IP) :
  getDnsLayer p1 = Ok (Some q1) -> OpCode q1 = DNSOpCodeQuery -> QR q1 = false ->
  getDnsLayer p2 = Ok (Some q2) -> OpCode q2 = DNSOpCodeQuery -> QR q2 = false ->
  ID q2 = ID q1 ->
  getIpaddrs p3 = Ok (srcIP, dstIP) ->
  getDnsLayer p3 = Ok (Some r) -> OpCode r = DNSOpCodeQuery -> QR r = true ->
  ID r = ID q1 ->
  getDnsLayer p4 = Ok (Some r') -> QR r' = true -> ID r' = ID q1 ->
  exists t1 t2 : conntable_t,
    handlePacket conntable now1 st1 p1 = Ok (t1, [])
    /\ t1 !! ID q1 = Some {| entry := q1; inserted := now1 |}
    /\ handlePacket t1 now2 st2 p2 = Ok (t2, [])
    /\ t2 !! ID q1 = Some {| entry := q2; inserted := now2 |}
    /\ dom t2 = dom t1
    /\ (forall k, k <> ID q1 -> t2 !! k = conntable !! k)
    /\ handlePacket t2 now3 st3 p3
       = (logEntries ← initLogEntry st3 srcIP dstIP q2 r;
          Ok (delete (ID q1) t2, logEntries))
    /\ delete (ID q1) t2 !! ID q1 = None
    /\ handlePacket (delete (ID q1) t2) now4 st4 p4 = Ok (delete (ID q1) t2, []).
Proof.
  intros Hd1 Hop1 Hqr1 Hd2 Hop2 Hqr2 Hid2 Hip3 Hd3 Hop3 Hqr3 Hid3 Hd4 Hqr4 Hid4.
  exists (<[ID q1 := {| entry := q1; inserted := now1 |}]> conntable).
  exists (<[ID q1 := {| entry := q2; inserted := now2 |}]>
            (<[ID q1 := {| entry := q1; inserted := now1 |}]> conntable)).
  split; [by apply handlePacket_question|].
  split; [by rewrite lookup_insert_eq|].
  split; [rewrite <- Hid2; by apply handlePacket_question|].
  split; [by rewrite lookup_insert_eq|].
  split; [by rewrite insert_insert_eq, !dom_insert_L|].
  split; [intros k Hk; by rewrite !lookup_insert_ne|].
  split.
  - rewrite (handlePacket_answer_found _ now3 st3 p3 r
               {| entry := q2; inserted := now2 |} srcIP dstIP); try assumption.
    + cbn [entry]. by rewrite Hid2.
    + rewrite Hid3. by rewrite lookup_insert_eq.
  - split; [apply lookup_delete_eq|].
    apply handlePacket_answer_missing with (dns := r'); [assumption..|].
    rewrite Hid4. apply lookup_delete_eq.
Qed.

(** C2 (amended). A wake-up of the collector removes exactly the entries
    inserted before [now + maxAge] and keeps every other entry as it was.
    With [maxAge <= 0], once the collector has woken at a time [s], no
    entry inserted before [s + maxAge] is in the table at any later point
    of the trace: a question stored at [T] with [T + |maxAge| < s] is gone
    and stays gone. *)
Theorem C2_sweep_removes_entries_before_cutoff
    (gcAge : Duration) (conntable conntable' : conntable_t)
    (before after : list event) (s : Time) (out : list dnsLogEntry) :
  gcAge <= 0 ->
  Forall (fun ev => s <= event_time ev) after ->
  run gcAge conntable (before ++ Wake s :: after) = Ok (conntable', out) ->
  (forall (tbl : conntable_t) (now : Time) (k : Z),
     cleanDnsCache tbl gcAge now !! k
     = match tbl !! k with
       | Some e => if inserted e <? now + gcAge then None else Some e
       | None => None
       end)
  /\ (forall k e, conntable' !! k = Some e -> ~ (inserted e + Z.abs gcAge < s)).
Proof.
  intros Hage Hlate Hrun. split.
  - intros tbl now k. apply cleanDnsCache_lookup.
  - apply run_app in Hrun as (mid & o1 & o2 & _ & Hrun & _).
    apply run_cons in Hrun as (mid' & o3 & o4 & Hstep & Hrun & _).
    cbn in Hstep. injection Hstep as <- <-.
    assert (Hinv : inserted_since (s + gcAge) conntable').
    { eapply run_inserted_since; [|apply cleanDnsCache_inserted_since|exact Hrun].
      eapply Forall_impl; [exact Hlate|]. cbn. intros ev Hev. lia. }
    intros k e Hk. apply Hinv in Hk. lia.
Qed.

(** C3. A TCP packet whose payload layer holds fewer than two octets makes
    [getDnsLayer] panic at [LayerContents()[2:]], whatever the decoder. *)
Theorem C3_short_tcp_payload_panics (src dst : net_IP) (b : byte) :
  getDnsLayer (tcp_packet src dst [b]) = Panic SliceBoundsOutOfRange
  /\ getDnsLayer (tcp_packet src dst []) = Panic SliceBoundsOutOfRange.
Proof. split; apply getDnsLayer_tcp_short; cbn; lia. Qed.

(** C4 (amended). For a question with a non-empty question section and a
    reply whose response code is not 0, [initLogEntry] returns exactly one
    entry; its answer is the name of the response code, its answer type is
    empty and its TTL is 0. *)
Theorem C4_failure_gives_one_entry
    (stamps : nat -> Time) (srcIP dstIP : net_IP) (question reply : DNS) :
  Questions question <> [] ->
  ResponseCode reply <> 0 ->
  exists e,
    initLogEntry stamps srcIP dstIP question reply = Ok [e]
    /\ Answer e = ResponseCode_String (ResponseCode reply)
    /\ Answer_Type e = ""
    /\ TTL e = 0.
Proof.
  intros Hq Hrc. destruct (Questions question) as [|q0 qs] eqn:Hqs; [done|].
  eexists. split; [by eapply initLogEntry_failure|]. cbn. auto.
Qed.

(** C5 (amended). For a reply with response code 0 and [k] answers, and a
    question whose question section is non-empty (or any question when
    [k = 0]), [initLogEntry] returns [k] entries.  The [i]-th entry has the
    name and type of the first question, the ID and response code of the
    reply, the server and client addresses, and the value, type and TTL of
    the [i]-th answer. *)
Theorem C5_success_gives_one_entry_per_answer
    (stamps : nat -> Time) (srcIP dstIP : net_IP) (question reply : DNS) :
  Questions question <> [] \/ Answers reply = [] ->
  ResponseCode reply = 0 ->
  exists entries,
    initLogEntry stamps srcIP dstIP question reply = Ok entries
    /\ length entries = length (Answers reply)
    /\ forall (i : nat) answer,
         Answers reply !! i = Some answer ->
         exists e q0,
           entries !! i = Some e
           /\ head (Questions question) = Some q0
           /\ Query_ID e = ID reply
           /\ Question e = string_of_list_byte (DNSQuestion.Name q0)
           /\ Question_Type e = TypeString (DNSQuestion.Type_ q0)
           /\ Response_Code e = ResponseCode reply
           /\ Server e = srcIP
           /\ Client e = dstIP
           /\ Answer e = RrString answer
           /\ Answer_Type e = TypeString (DNSResourceRecord.Type_ answer)
           /\ TTL e = DNSResourceRecord.TTL answer.
Proof.
  intros Hq Hrc. rewrite initLogEntry_success by assumption.
  destruct (Questions question) as [|q0 qs] eqn:Hqs.
  - destruct Hq as [Hq|Hk]; [done|]. rewrite Hk. exists []. cbn.
    split; [reflexivity|]. split; [reflexivity|]. intros i answer Hi. discriminate.
  - eexists. split; [by eapply initLogEntry_range_nonempty|].
    cbn. split; [apply length_imap|].
    intros i answer Hi. eexists. exists q0. split.
    + rewrite list_lookup_imap, Hi. reflexivity.
    + cbn. repeat split; reflexivity.
Qed.

(** C6. [TypeString] gives the names A, AAAA, CNAME, MX, NS, PTR, TXT, SOA
    and SRV to their types and ANY to 255; every other type is printed as
    its decimal numeral, which reads back as the same number.  [RrString]
    gives the printed address for A and AAAA, the name or text held for
    CNAME, NS, PTR and TXT, the name of the exchange for MX, the
    responsible name for SOA, the target name for SRV, and the raw data
    octets, unchanged, for every other type. *)
Theorem C6_type_and_value_strings :
  (TypeString DNSTypeA = "A" /\ TypeString DNSTypeAAAA = "AAAA"
   /\ TypeString DNSTypeCNAME = "CNAME" /\ TypeString DNSTypeMX = "MX"
   /\ TypeString DNSTypeNS = "NS" /\ TypeString DNSTypePTR = "PTR"
   /\ TypeString DNSTypeTXT = "TXT" /\ TypeString DNSTypeSOA = "SOA"
   /\ TypeString DNSTypeSRV = "SRV" /\ TypeString 255 = "ANY")
  /\ (forall t : DNSType,
        t ∉ [DNSTypeA; DNSTypeAAAA; DNSTypeCNAME; DNSTypeMX; DNSTypeNS;
             DNSTypePTR; DNSTypeTXT; DNSTypeSOA; DNSTypeSRV; 255] ->
        TypeString t = Itoa t
        /\ option_map Z.of_int (NilZero.int_of_string (TypeString t)) = Some t)
  /\ (forall rr : DNSResourceRecord.t,
        let ty := DNSResourceRecord.Type_ rr in
        (ty = DNSTypeA \/ ty = DNSTypeAAAA ->
           RrString rr = IP_String (DNSResourceRecord.IP rr))
        /\ (ty = DNSTypeCNAME ->
              RrString rr = string_of_list_byte (DNSResourceRecord.CNAME rr))
        /\ (ty = DNSTypeNS ->
              RrString rr = string_of_list_byte (DNSResourceRecord.NS rr))
        /\ (ty = DNSTypePTR ->
              RrString rr = string_of_list_byte (DNSResourceRecord.PTR rr))
        /\ (ty = DNSTypeTXT ->
              RrString rr = string_of_list_byte (DNSResourceRecord.TXT rr))
        /\ (ty = DNSTypeMX ->
              RrString rr = string_of_list_byte (DNSMX.Name (DNSResourceRecord.MX rr)))
        /\ (ty = DNSTypeSOA ->
              RrString rr = string_of_list_byte (DNSSOA.RName (DNSResourceRecord.SOA rr)))
        /\ (ty = DNSTypeSRV ->
              RrString rr = string_of_list_byte (DNSSRV.Name (DNSResourceRecord.SRV rr)))
        /\ (ty ∉ [DNSTypeA; DNSTypeAAAA; DNSTypeCNAME; DNSTypeMX; DNSTypeNS;
                  DNSTypePTR; DNSTypeTXT; DNSTypeSOA; DNSTypeSRV] ->
              RrString rr = string_of_list_byte (DNSResourceRecord.Data rr)
              /\ list_byte_of_string (RrString rr) = DNSResourceRecord.Data rr)).
Proof.
  split; [repeat split; reflexivity|]. split.
  - intros t Hother.
    repeat (apply not_elem_of_cons in Hother as [? Hother]).
    assert (Hts : TypeString t = Itoa t).
    { unfold TypeString.
      repeat match goal with
             | |- context [t =? ?c] => destruct (Z.eqb_spec t c); [contradiction|]
             end.
      reflexivity. }
    split; [exact Hts|]. rewrite Hts. apply Itoa_reads_back.
  - intros rr ty. unfold RrString. fold ty.
    split; [intros [-> | ->]; reflexivity|].
    do 7 (split; [intros ->; reflexivity|]).
    intros Hother.
    repeat (apply not_elem_of_cons in Hother as [? Hother]).
    repeat match goal with
           | |- context [ty =? ?c] => destruct (Z.eqb_spec ty c); [contradiction|]
           end.
    split; [reflexivity|apply list_byte_of_string_of_list_byte].
Qed.

(** C7. An answer whose ID has no entry in the table is dropped: no entry
    is sent, the table is returned as it was, and nothing panics. *)
Theorem C7_unmatched_answer_is_dropped
    (conntable : conntable_t) (now : Time) (stamps : nat -> Time)
    (packet : Packet) (dns : DNS) :
  getDnsLayer packet = Ok (Some dns) ->
  QR dns = true ->
  conntable !! ID dns = None ->
  handlePacket conntable now stamps packet = Ok (conntable, []).
Proof. apply handlePacket_answer_missing. Qed.


(** C9. A TCP packet whose payload holds one octet carries no DNS message,
    and the loop body does not skip it: [handlePacket] panics at
    [LayerContents()[2:]] in [getDnsLayer], whatever the table and the
    decoder. *)
Theorem C9_malformed_tcp_packet_stops_the_loop
    (conntable : conntable_t) (now : Time) (stamps : nat -> Time)
    (src dst : net_IP) (b : byte) :
  handlePacket conntable now stamps (tcp_packet src dst [b])
  = Panic SliceBoundsOutOfRange.
Proof.
  unfold handlePacket.
  destruct (getIpaddrs_total (tcp_packet src dst [b])) as (srcIP & dstIP & ->).
  cbn [mbind result_bind].
  rewrite getDnsLayer_tcp_short by (cbn; lia). reflexivity.
Qed.

(** C10 (amended). [initLogEntry] reads [question.Questions[0]] once for
    every entry it builds: always when the response code is not 0, once per
    answer when it is 0, and not at all for a successful reply without
    answers.  It returns exactly when the question section is non-empty or
    the reply is successful and has no answers, and panics with an index out
    of range in every other case. *)
Theorem C10_question_index_safety
    (stamps : nat -> Time) (srcIP dstIP : net_IP) (question reply : DNS) :
  (is_Ok (initLogEntry stamps srcIP dstIP question reply)
   <-> Questions question <> [] \/ (ResponseCode reply = 0 /\ Answers reply = []))
  /\ (initLogEntry stamps srcIP dstIP question reply = Panic IndexOutOfRange
      <-> Questions question = [] /\ (ResponseCode reply <> 0 \/ Answers reply <> [])).
Proof.
  destruct (initLogEntry_cases stamps srcIP dstIP question reply)
    as [[Hpre Hok] | [[Hq Hbuild] Hpanic]].
  - split; split; try done.
    + intros Hp. destruct Hok as [a Ha]. congruence.
    + intros [Hq Hbuild]. exfalso.
      destruct Hpre as [Hne | [Hrc Hk]]; [done|]. destruct Hbuild; done.
  - split; split; try done.
    + intros [a Ha]. congruence.
    + intros [Hne | [Hrc Hk]]; [done|]. destruct Hbuild; done.
Qed.

End Claims.

(** * The claims on sample traffic *)

(** The scenario of one question and its answer: one entry, for
    example.com, type A, answer 93.184.216.34, TTL 3600. *)
Example question_then_answer :
  @run sample_Extern (-60) ∅
    [Arrive (udp_packet client_IP server_IP sample_query) 100 stamps0;
     Arrive (udp_packet server_IP client_IP sample_reply) 101 stamps0]
  = Ok (∅, [ {| Query_ID := 4660; Response_Code := 0;
                Question := "example.com"; Question_Type := "A";
                Answer := "93.184.216.34"; Answer_Type := "A"; TTL := 3600;
                Server := server_IP; Client := client_IP;
                Timestamp := "1000"; encoded := None; err := None |} ]).
Proof. vm_compute. reflexivity. Qed.

(** A TCP payload of a length prefix and a twelve-octet header: the header
    alone is decoded. *)
Example tcp_prefix_is_skipped :
  @getDnsLayer sample_Extern
    (tcp_packet client_IP server_IP
       [x00; x0c; x12; x34; x01; x00; x00; x00; x00; x00; x00; x00; x00; x00])
  = Ok (Some {| ID := 4660; QR := false; OpCode := 0; ResponseCode := 0;
                Questions := []; Answers := [] |}).
Proof. reflexivity. Qed.

(** A TCP payload whose remainder the decoder cannot decode: the first layer
    of the decoded packet is a decode failure and the type assertion
    panics. *)
Example tcp_undecodable_remainder_panics :
  @getDnsLayer sample_Extern
    (tcp_packet client_IP server_IP [x00; x03; x12; x34; x01])
  = Panic InterfaceConversion.
Proof. reflexivity. Qed.

Lemma C1_witness :
  let p1 := udp_packet client_IP server_IP sample_query in
  let p2 := udp_packet client_IP server_IP sample_query' in
  let p3 := udp_packet server_IP client_IP sample_reply in
  exists t1 t2 : conntable_t,
    @handlePacket sample_Extern ∅ 100 stamps0 p1 = Ok (t1, [])
    /\ t1 !! 4660 = Some {| entry := sample_query; inserted := 100 |}
    /\ @handlePacket sample_Extern t1 101 stamps0 p2 = Ok (t2, [])
    /\ t2 !! 4660 = Some {| entry := sample_query'; inserted := 101 |}
    /\ dom t2 = dom t1
    /\ (forall k, k <> 4660 -> t2 !! k = (∅ : conntable_t) !! k)
    /\ @handlePacket sample_Extern t2 102 stamps0 p3
       = (logEntries ← @initLogEntry sample_Extern stamps0 server_IP client_IP
                         sample_query' sample_reply;
          Ok (delete 4660 t2, logEntries))
    /\ delete 4660 t2 !! 4660 = None
    /\ @handlePacket sample_Extern (delete 4660 t2) 103 stamps0 p3
       = Ok (delete 4660 t2, []).
Proof.
  exact (@C1_second_question_replaces_first sample_Extern ∅
           (udp_packet client_IP server_IP sample_query)
           (udp_packet client_IP server_IP sample_query')
           (udp_packet server_IP client_IP sample_reply)
           (udp_packet server_IP client_IP sample_reply)
           sample_query sample_query' sample_reply sample_reply
           100 101 102 103 stamps0 stamps0 stamps0 stamps0 server_IP client_IP
           eq_refl eq_refl eq_refl eq_refl eq_refl eq_refl eq_refl eq_refl
           eq_refl eq_refl eq_refl eq_refl eq_refl eq_refl eq_refl).
Defined.

(** C2, as stated, fails: a question stored at 100 with a maximum age of
    -60 is still in the table after the collector woke at 160, which is
    100 + 60. *)
Lemma C2_sweep_at_the_boundary_keeps_the_entry :
  100 + Z.abs (-60) <= 160
  /\ exists tbl : conntable_t,
       @run sample_Extern (-60) ∅
         [Arrive (udp_packet client_IP server_IP sample_query) 100 stamps0; Wake 160]
       = Ok (tbl, [])
       /\ tbl !! 4660 = Some {| entry := sample_query; inserted := 100 |}.
Proof.
  split; [cbn; lia|].
  eexists. split; [vm_compute; reflexivity|]. vm_compute. reflexivity.
Qed.

Lemma C2_witness :
  (forall (tbl : conntable_t) (now : Time) (k : Z),
     cleanDnsCache tbl (-60) now !! k
     = match tbl !! k with
       | Some e => if inserted e <? now + -60 then None else Some e
       | None => None
       end)
  /\ (forall k e,
        (<[4660 := {| entry := sample_query'; inserted := 200 |}]> ∅ : conntable_t) !! k
        = Some e ->
        ~ (inserted e + Z.abs (-60) < 161)).
Proof.
  refine (@C2_sweep_removes_entries_before_cutoff sample_Extern (-60) ∅ _
            [Arrive (udp_packet client_IP server_IP sample_query) 100 stamps0]
            [Arrive (udp_packet client_IP server_IP sample_query') 200 stamps0]
            161 [] _ _ _).
  - lia.
  - repeat constructor. cbn. lia.
  - vm_compute. reflexivity.
Defined.

(** C3 on the sample decoder: a one-octet TCP payload stops the worker. *)
Example short_tcp_payload_stops_the_worker :
  @run sample_Extern (-60) ∅ [Arrive (tcp_packet client_IP server_IP [x00]) 100 stamps0]
  = Panic SliceBoundsOutOfRange.
Proof. reflexivity. Qed.

(** C4, as stated, fails: a question without a question section, matched by
    a reply with response code 3, yields no entry but a panic. *)
Lemma C4_empty_question_section_panics :
  ResponseCode sample_nxdomain <> 0
  /\ @initLogEntry sample_Extern stamps0 server_IP client_IP
       sample_noquestion sample_nxdomain
     = Panic IndexOutOfRange
  /\ @run sample_Extern (-60) ∅
       [Arrive (udp_packet client_IP server_IP sample_noquestion) 100 stamps0;
        Arrive (udp_packet server_IP client_IP sample_nxdomain) 101 stamps0]
     = Panic IndexOutOfRange.
Proof.
  split; [cbn; lia|]. split; [reflexivity|]. vm_compute. reflexivity.
Qed.

Lemma C4_witness :
  exists e,
    @initLogEntry sample_Extern stamps0 server_IP client_IP sample_query sample_nxdomain
    = Ok [e]
    /\ Answer e = "Non-Existent Domain"
    /\ Answer_Type e = ""
    /\ TTL e = 0.
Proof.
  refine (@C4_failure_gives_one_entry sample_Extern stamps0 server_IP client_IP
            sample_query sample_nxdomain _ _).
  - cbn. discriminate.
  - cbn. lia.
Defined.

(** C5, as stated, fails: a question without a question section, matched by
    a successful reply with one answer, yields no entry but a panic. *)
Lemma C5_empty_question_section_panics :
  ResponseCode sample_reply = 0
  /\ length (Answers sample_reply) = 1%nat
  /\ @initLogEntry sample_Extern stamps0 server_IP client_IP
       sample_noquestion sample_reply
     = Panic IndexOutOfRange
  /\ @run sample_Extern (-60) ∅
       [Arrive (udp_packet client_IP server_IP sample_noquestion) 100 stamps0;
        Arrive (udp_packet server_IP client_IP sample_reply) 101 stamps0]
     = Panic IndexOutOfRange.
Proof.
  split; [reflexivity|]. split; [reflexivity|]. split; [reflexivity|].
  vm_compute. reflexivity.
Qed.

Lemma C5_witness :
  exists entries,
    @initLogEntry sample_Extern stamps0 server_IP client_IP sample_query sample_reply
    = Ok entries
    /\ length entries = 1%nat
    /\ forall (i : nat) answer,
         [sample_A] !! i = Some answer ->
         exists e q0,
           entries !! i = Some e
           /\ Some (DNSQuestion.mk example_com DNSTypeA 1) = Some q0
           /\ Query_ID e = 4660
           /\ Question e = string_of_list_byte (DNSQuestion.Name q0)
           /\ Question_Type e = TypeString (DNSQuestion.Type_ q0)
           /\ Response_Code e = 0
           /\ Server e = server_IP
           /\ Client e = client_IP
           /\ Answer e = @RrString sample_Extern answer
           /\ Answer_Type e = TypeString (DNSResourceRecord.Type_ answer)
           /\ TTL e = DNSResourceRecord.TTL answer.
Proof.
  refine (@C5_success_gives_one_entry_per_answer sample_Extern stamps0
            server_IP client_IP sample_query sample_reply _ _).
  - left. cbn. discriminate.
  - reflexivity.
Defined.

Lemma C6_witness :
  TypeString 3 = "3"
  /\ TypeString 65535 = "65535"
  /\ @RrString sample_Extern sample_A = "93.184.216.34"
  /\ @RrString sample_Extern
       (DNSResourceRecord.mk example_com 99 1 300 [x68; x69] [] [] [] [] []
          no_SOA no_SRV no_MX)
     = "hi".
Proof.
  destruct (@C6_type_and_value_strings sample_Extern) as (_ & Hnum & Hrr).
  split; [destruct (Hnum 3) as [H3 _]; [compute_done|exact H3]|].
  split; [destruct (Hnum 65535) as [H65535 _]; [compute_done|exact H65535]|].
  split.
  - destruct (Hrr sample_A) as (Hip & _). rewrite Hip; [reflexivity|by left].
  - destruct (Hrr (DNSResourceRecord.mk example_com 99 1 300 [x68; x69] [] [] [] [] []
                     no_SOA no_SRV no_MX)) as (_ & _ & _ & _ & _ & _ & _ & _ & Hraw).
    destruct Hraw as [Hdata _]; [compute_done|rewrite Hdata; reflexivity].
Defined.

Lemma C7_witness :
  @handlePacket sample_Extern ∅ 100 stamps0 (udp_packet server_IP client_IP sample_reply)
  = Ok (∅, []).
Proof.
  exact (@C7_unmatched_answer_is_dropped sample_Extern ∅ 100 stamps0
           (udp_packet server_IP client_IP sample_reply) sample_reply
           eq_refl eq_refl eq_refl).
Defined.


(** C9 on the sample decoder: the packet stops the worker and leaves the
    question stored before it unanswered. *)
Example malformed_tcp_packet_stops_the_worker :
  @run sample_Extern (-60) ∅
    [Arrive (udp_packet client_IP server_IP sample_query) 100 stamps0;
     Arrive (tcp_packet client_IP server_IP [x00]) 101 stamps0;
     Arrive (udp_packet server_IP client_IP sample_reply) 102 stamps0]
  = Panic SliceBoundsOutOfRange.
Proof. vm_compute. reflexivity. Qed.

(** C10, as stated, fails: for a successful reply without answers the
    question section is not read, and a question without a question section
    gives an empty result instead of a panic. *)
Lemma C10_no_answers_no_read :
  Questions sample_noquestion = []
  /\ @initLogEntry sample_Extern stamps0 server_IP client_IP
       sample_noquestion sample_empty_reply
     = Ok []
  /\ @run sample_Extern (-60) ∅
       [Arrive (udp_packet client_IP server_IP sample_noquestion) 100 stamps0;
        Arrive (udp_packet server_IP client_IP sample_empty_reply) 101 stamps0]
     = Ok (∅, []).
Proof.
  split; [reflexivity|]. split; [reflexivity|]. vm_compute. reflexivity.
Qed.

(** * Further properties of [main.go] *)

(** ** Finding layers *)

Lemma find_first {A} (P : A -> bool) (pre : list A) (x : A) (post : list A) :
  Forall (fun y => P y = false) pre -> P x = true ->
  List.find P (pre ++ x :: post) = Some x.
Proof.
  induction 1 as [|y pre Hy _ IH]; intros Hx; cbn.
  - by rewrite Hx.
  - rewrite Hy. by apply IH.
Qed.

Lemma find_split {A} (P : A -> bool) (l : list A) :
  (List.find P l = None /\ Forall (fun y => P y = false) l)
  \/ exists pre x post,
       l = pre ++ x :: post /\ Forall (fun y => P y = false) pre
       /\ P x = true /\ List.find P l = Some x.
Proof.
  induction l as [|y l IH]; [left; by split|].
  cbn. destruct (P y) eqn:Hy.
  - right. exists [], y, l. by repeat split.
  - destruct IH as [[Hnone Hall] | (pre & x & post & -> & Hpre & Hx & Hfind)].
    + left. split; [assumption|by constructor].
    + right. exists (y :: pre), x, post. repeat split; try assumption.
      by constructor.
Qed.

Lemma Packet_Layer_first packet t pre l post :
  Layers packet = pre ++ l :: post ->
  Forall (fun x => Layer_LayerType x <> t) pre ->
  Layer_LayerType l = t ->
  Packet_Layer packet t = Some l.
Proof.
  intros Hl Hpre Ht. unfold Packet_Layer. rewrite Hl. apply find_first.
  - eapply Forall_impl; [exact Hpre|]. cbn. intros x Hx. by apply bool_decide_eq_false.
  - by apply bool_decide_eq_true.
Qed.

Lemma Packet_Layer_absent packet t :
  Forall (fun x => Layer_LayerType x <> t) (Layers packet) ->
  Packet_Layer packet t = None.
Proof.
  intros Hall. unfold Packet_Layer.
  destruct (find_split (fun l => bool_decide (Layer_LayerType l = t)) (Layers packet))
    as [[Hnone _] | (pre & x & post & Hl & _ & Hx & _)]; [assumption|].
  apply bool_decide_eq_true in Hx. rewrite Hl in Hall.
  apply Forall_app in Hall as [_ Hall]. by inversion Hall.
Qed.

(** X1. [getIpaddrs] never panics.  It returns the addresses of the first
    IPv4 layer if the packet has one, else those of the first IPv6 layer,
    and two nil addresses for a packet with neither. *)
Theorem X1_getIpaddrs_first_IP_layer (packet : Packet) :
  (exists srcIP dstIP, getIpaddrs packet = Ok (srcIP, dstIP))
  /\ (forall pre s d c post,
        Layers packet = pre ++ IPv4Layer s d c :: post ->
        Forall (fun x => Layer_LayerType x <> LayerTypeIPv4) pre ->
        getIpaddrs packet = Ok (s, d))
  /\ (forall pre s d c post,
        Forall (fun x => Layer_LayerType x <> LayerTypeIPv4) (Layers packet) ->
        Layers packet = pre ++ IPv6Layer s d c :: post ->
        Forall (fun x => Layer_LayerType x <> LayerTypeIPv6) pre ->
        getIpaddrs packet = Ok (s, d))
  /\ (Forall (fun x => Layer_LayerType x <> LayerTypeIPv4
                       /\ Layer_LayerType x <> LayerTypeIPv6) (Layers packet) ->
      getIpaddrs packet = Ok ([], [])).
Proof.
  split; [apply getIpaddrs_total|]. split; [|split].
  - intros pre s d c post Hl Hpre. unfold getIpaddrs.
    by rewrite (Packet_Layer_first packet LayerTypeIPv4 pre _ post Hl Hpre eq_refl).
  - intros pre s d c post Hno4 Hl Hpre. unfold getIpaddrs.
    rewrite (Packet_Layer_absent _ _ Hno4).
    by rewrite (Packet_Layer_first packet LayerTypeIPv6 pre _ post Hl Hpre eq_refl).
  - intros Hnone. unfold getIpaddrs.
    rewrite !Packet_Layer_absent; [reflexivity|..];
      (eapply Forall_impl; [exact Hnone|]; cbn; tauto).
Qed.

Lemma X1_witness :
  getIpaddrs (udp_packet client_IP server_IP sample_query) = Ok (client_IP, server_IP)
  /\ getIpaddrs arp_packet = Ok ([], []).
Proof.
  destruct (X1_getIpaddrs_first_IP_layer (udp_packet client_IP server_IP sample_query))
    as (_ & H4 & _).
  destruct (X1_getIpaddrs_first_IP_layer arp_packet) as (_ & _ & _ & Hnone).
  split.
  - apply (H4 [EthernetLayer []] client_IP server_IP []
              [UDPLayer []; DNSLayer sample_query []] eq_refl).
    repeat constructor. discriminate.
  - apply Hnone. repeat constructor; discriminate.
Defined.

(** ** Type names *)

Lemma TypeString_cases (t : DNSType) :
  (t ∈ [DNSTypeA; DNSTypeAAAA; DNSTypeCNAME; DNSTypeMX; DNSTypeNS;
        DNSTypePTR; DNSTypeTXT; DNSTypeSOA; DNSTypeSRV; 255]
   /\ option_map Z.of_int (NilZero.int_of_string (TypeString t)) = None)
  \/ option_map Z.of_int (NilZero.int_of_string (TypeString t)) = Some t.
Proof.
  unfold TypeString.
  repeat match goal with
         | |- context [t =? ?c] =>
             destruct (Z.eqb_spec t c) as [->|?];
               [left; split; [set_solver|reflexivity]|]
         end.
  right. apply Itoa_reads_back.
Qed.

(** X4. [TypeString] loses nothing: two types with the same string are the
    same type. *)
Theorem X4_TypeString_injective (t u : DNSType) :
  TypeString t = TypeString u -> t = u.
Proof.
  intros Heq.
  destruct (TypeString_cases t) as [[Ht Hnt] | Hrt];
    destruct (TypeString_cases u) as [[Hu Hnu] | Hru].
  - repeat (apply elem_of_cons in Ht as [-> | Ht]);
      try (by apply elem_of_nil in Ht);
      repeat (apply elem_of_cons in Hu as [-> | Hu]);
      try (by apply elem_of_nil in Hu);
      first [reflexivity | discriminate Heq].
  - rewrite Heq in Hnt. congruence.
  - rewrite Heq in Hrt. congruence.
  - rewrite Heq in Hrt. congruence.
Qed.

Lemma X4_witness : DNSTypeSRV = 33.
Proof. exact (X4_TypeString_injective DNSTypeSRV 33 eq_refl). Defined.

(** ** When the extractor panics *)

Section Extractor.
Context `{!Extern}.

Lemma getDnsLayer_range_no_payload layers :
  Forall (fun l => Layer_LayerType l <> LayerTypePayload) layers ->
  getDnsLayer_range layers = Ok None.
Proof.
  induction 1 as [|l layers Hl _ IH]; [reflexivity|].
  cbn [getDnsLayer_range]. destruct l; try exact IH. by destruct Hl.
Qed.

Lemma layers_first_payload (layers : list Layer) :
  Forall (fun l => Layer_LayerType l <> LayerTypePayload) layers
  \/ exists pre contents post,
       layers = pre ++ PayloadLayer contents :: post
       /\ Forall (fun l => Layer_LayerType l <> LayerTypePayload) pre.
Proof.
  induction layers as [|l layers IH]; [left; constructor|].
  destruct (decide (Layer_LayerType l = LayerTypePayload)) as [Hp|Hp].
  - right. destruct l; try discriminate. by exists [], contents, layers.
  - destruct IH as [Hall | (pre & c & post & -> & Hpre)].
    + left. by constructor.
    + right. exists (l :: pre), c, post. split; [reflexivity|by constructor].
Qed.

Lemma payload_result_panics contents p :
  (data ← slice_from 2 contents;
   match NewPacket_DNS data with
   | Some dnsP =>
       first ← index0 (Layers dnsP);
       match first with
       | DNSLayer dns _ => Ok (Some dns)
       | _ => Panic InterfaceConversion
       end
   | None => Ok None
   end) = Panic p
  <-> payload_panics contents p.
Proof.
  unfold payload_panics, slice_from.
  destruct (Nat.leb_spec 2 (length contents)) as [Hlen|Hlen]; cbn.
  - destruct (NewPacket_DNS (drop 2 contents)) as [dnsP|] eqn:Hdec.
    + destruct (Layers dnsP) as [|first rest] eqn:Hlayers; cbn.
      * split.
        -- intros [= <-]. right. split; [assumption|]. exists dnsP.
           split; [reflexivity|]. by left.
        -- intros [[? _] | [_ (d & [= <-] & [[_ ->] | (f & r & Hl & _)])]];
             [lia|reflexivity|]. rewrite Hlayers in Hl. discriminate.
      * split.
        -- intros Hp. right. split; [assumption|]. exists dnsP.
           split; [reflexivity|]. right. exists first, rest.
           split; [assumption|]. destruct first; cbn in Hp |- *;
             try (injection Hp as <-; split; [discriminate|reflexivity]).
           discriminate.
        -- intros [[? _] | [_ (d & [= <-] & [[Hl _] | (f & r & Hl & Hty & ->)])]];
             [lia|rewrite Hlayers in Hl; discriminate|].
           rewrite Hlayers in Hl. injection Hl as <- <-.
           destruct first; try reflexivity. by destruct Hty.
    + split; [discriminate|].
      intros [[? _] | [_ (d & Hd & _)]]; [lia|discriminate].
  - split.
    + intros [= <-]. left. by split.
    + intros [[_ ->] | [? _]]; [reflexivity|lia].
Qed.

(** X2. [getDnsLayer] panics in exactly these cases: the packet has no UDP
    layer, it has a TCP layer, and its first layer named Payload either
    holds fewer than two octets (slice bounds), or is decoded to a packet
    without layers (index) or to one whose first layer is not a DNS layer
    (type assertion).  A packet with a UDP layer never makes it panic. *)
Theorem X2_getDnsLayer_panics_exactly (packet : Packet) (p : panic) :
  getDnsLayer packet = Panic p
  <-> Packet_Layer packet LayerTypeUDP = None
      /\ Packet_Layer packet LayerTypeTCP <> None
      /\ exists pre contents post,
           Layers packet = pre ++ PayloadLayer contents :: post
           /\ Forall (fun l => Layer_LayerType l <> LayerTypePayload) pre
           /\ payload_panics contents p.
Proof.
  unfold getDnsLayer. split.
  - destruct (Packet_Layer packet LayerTypeUDP) as [udpLayer|] eqn:Hudp.
    + destruct (Packet_Layer packet LayerTypeDNS) as [dnsLayer|] eqn:Hdns;
        [|discriminate].
      apply Packet_Layer_type in Hdns. destruct dnsLayer; discriminate.
    + destruct (Packet_Layer packet LayerTypeTCP) as [tcpLayer|] eqn:Htcp;
        [|discriminate].
      intros Hp. split; [reflexivity|]. split; [discriminate|].
      destruct (layers_first_payload (Layers packet))
        as [Hnone | (pre & c & post & Hl & Hpre)].
      * rewrite getDnsLayer_range_no_payload in Hp by assumption. discriminate.
      * exists pre, c, post. split; [assumption|]. split; [assumption|].
        rewrite Hl, getDnsLayer_range_first_payload in Hp by assumption.
        by apply payload_result_panics.
  - intros (Hudp & Htcp & pre & c & post & Hl & Hpre & Hp).
    rewrite Hudp. destruct (Packet_Layer packet LayerTypeTCP); [|done].
    rewrite Hl, getDnsLayer_range_first_payload by assumption.
    by apply payload_result_panics.
Qed.

End Extractor.

(** ** More on the collector *)

(** X5. Two wake-ups of the collector, in either order, leave what one
    wake-up at the later of the two times leaves; a second wake-up at the
    same time changes nothing. *)
Theorem X5_two_sweeps_are_the_later_one
    (conntable : conntable_t) (maxAge : Duration) (now1 now2 : Time) :
  cleanDnsCache (cleanDnsCache conntable maxAge now1) maxAge now2
  = cleanDnsCache conntable maxAge (Z.max now1 now2).
Proof.
  apply map_eq. intros k. rewrite !cleanDnsCache_lookup.
  unfold Time_Before, Time_Add.
  destruct (conntable !! k) as [e|]; [|reflexivity].
  destruct (Z.ltb_spec (inserted e) (now1 + maxAge)) as [H1|H1];
    destruct (Z.ltb_spec (inserted e) (Z.max now1 now2 + maxAge)) as [Hm|Hm];
    try destruct (Z.ltb_spec (inserted e) (now2 + maxAge)) as [H2|H2];
    try reflexivity; lia.
Qed.

(** X6. With a positive maximum age the cutoff lies in the future: a
    wake-up removes every entry inserted up to now, so the table is empty
    after it. *)
Theorem X6_positive_age_empties_the_table
    (conntable : conntable_t) (maxAge : Duration) (now : Time) :
  0 < maxAge ->
  (forall k e, conntable !! k = Some e -> inserted e <= now) ->
  cleanDnsCache conntable maxAge now = ∅.
Proof.
  intros Hpos Hpast. apply map_eq. intros k.
  rewrite cleanDnsCache_lookup, lookup_empty.
  destruct (conntable !! k) as [e|] eqn:Hk; [|reflexivity].
  apply Hpast in Hk. unfold Time_Before, Time_Add.
  destruct (Z.ltb_spec (inserted e) (now + maxAge)); [reflexivity|lia].
Qed.

Lemma X6_witness :
  cleanDnsCache (<[4660 := {| entry := sample_query; inserted := 100 |}]> ∅) 60 100 = ∅.
Proof.
  apply X6_positive_age_empties_the_table; [lia|].
  intros k e Hk. apply lookup_insert_Some in Hk as [[_ <-] | [_ Hk]]; [cbn; lia|].
  rewrite lookup_empty in Hk. discriminate.
Defined.

(** ** More on the packet loop *)

Section Loop.
Context `{!Extern}.

Lemma handlePacket_table_dns (conntable conntable' : conntable_t) now stamps packet
    dns out :
  getDnsLayer packet = Ok (Some dns) ->
  handlePacket conntable now stamps packet = Ok (conntable', out) ->
  conntable' = conntable
  \/ (QR dns = false /\ out = []
      /\ conntable' = <[ID dns := {| entry := dns; inserted := now |}]> conntable)
  \/ (exists item srcIP dstIP,
        QR dns = true /\ conntable !! ID dns = Some item
        /\ getIpaddrs packet = Ok (srcIP, dstIP)
        /\ initLogEntry stamps srcIP dstIP (entry item) dns = Ok out
        /\ conntable' = delete (ID (entry item)) conntable).
Proof.
  intros Hdns. unfold handlePacket.
  destruct (getIpaddrs packet) as [[srcIP dstIP]|] eqn:Hip; cbn; [|discriminate].
  rewrite Hdns. cbn. destruct (negb _).
  - intros [= <- <-]. by left.
  - destruct (QR dns) eqn:Hqr.
    + destruct (conntable !! ID dns) as [item|] eqn:Hfound.
      * destruct (initLogEntry _ _ _ _ _) as [logEntries|] eqn:Hlog; cbn;
          [|discriminate].
        intros [= <- <-]. right. right. exists item, srcIP, dstIP. auto.
      * intros [= <- <-]. by left.
    + intros [= <- <-]. right. left. auto.
Qed.

Lemma handlePacket_other_IDs
    (conntable conntable' : conntable_t) now stamps packet dns out (k : Z) :
  keyed_by_ID conntable ->
  getDnsLayer packet = Ok (Some dns) ->
  handlePacket conntable now stamps packet = Ok (conntable', out) ->
  k <> ID dns ->
  conntable' !! k = conntable !! k.
Proof.
  intros Hkeyed Hdns Hstep Hk.
  destruct (handlePacket_table_dns _ _ _ _ _ _ _ Hdns Hstep)
    as [-> | [(_ & _ & ->) | (item & s & d & _ & Hfound & _ & _ & ->)]].
  - reflexivity.
  - by rewrite lookup_insert_ne.
  - rewrite (Hkeyed _ _ Hfound). by rewrite lookup_delete_ne.
Qed.

(** X7. In a table whose entries are stored under the ID of their question,
    a packet touches no key but the ID of its own DNS message: the entries
    of all other transactions stay as they are. *)
Theorem X7_other_IDs_are_untouched
    (conntable conntable' : conntable_t) now stamps packet dns out (k : Z) :
  keyed_by_ID conntable ->
  getDnsLayer packet = Ok (Some dns) ->
  handlePacket conntable now stamps packet = Ok (conntable', out) ->
  k <> ID dns ->
  conntable' !! k = conntable !! k.
Proof. apply handlePacket_other_IDs. Qed.

(** X8. A question followed by the answer with its ID: the entries sent
    are those built from this question and this answer, and the table is
    the one before the question without that ID, whatever was stored under
    the ID before. *)
Theorem X8_question_then_answer
    (gcAge : Duration) (conntable : conntable_t) (pq pr : Packet) (q r : DNS)
    (nowq nowr : Time) (stq str : nat -> Time) (srcIP dstIP : net_IP) :
  getDnsLayer pq = Ok (Some q) -> OpCode q = DNSOpCodeQuery -> QR q = false ->
  getIpaddrs pr = Ok (srcIP, dstIP) ->
  getDnsLayer pr = Ok (Some r) -> OpCode r = DNSOpCodeQuery -> QR r = true ->
  ID r = ID q ->
  run gcAge conntable [Arrive pq nowq stq; Arrive pr nowr str]
  = (logEntries ← initLogEntry str srcIP dstIP q r;
     Ok (delete (ID q) conntable, logEntries)).
Proof.
  intros Hq Hopq Hqrq Hip Hr Hopr Hqrr Hid. cbn [run step].
  rewrite (handlePacket_question _ _ _ _ _ Hq Hopq Hqrq). cbn.
  rewrite (handlePacket_answer_found _ nowr str pr r
             {| entry := q; inserted := nowq |} srcIP dstIP Hip Hr Hopr Hqrr)
    by (rewrite Hid; apply lookup_insert_eq).
  cbn [entry]. rewrite delete_insert_eq.
  destruct (initLogEntry str srcIP dstIP q r) as [logEntries|]; cbn; [|reflexivity].
  by rewrite app_nil_r.
Qed.

(** X9. An answer that comes after the collector removed its question is
    dropped: when the question was stored at [T] and the collector wakes at
    a time [s] with [T < s + gcAge], the answer sends nothing. *)
Theorem X9_answer_after_collection_is_dropped
    (gcAge : Duration) (conntable : conntable_t) (pq pr : Packet) (q r : DNS)
    (T s nowr : Time) (stq str : nat -> Time) :
  getDnsLayer pq = Ok (Some q) -> OpCode q = DNSOpCodeQuery -> QR q = false ->
  getDnsLayer pr = Ok (Some r) -> QR r = true -> ID r = ID q ->
  T < s + gcAge ->
  exists conntable' : conntable_t,
    run gcAge conntable [Arrive pq T stq; Wake s; Arrive pr nowr str]
    = Ok (conntable', [])
    /\ conntable' !! ID q = None.
Proof.
  intros Hq Hopq Hqrq Hr Hqrr Hid Hold.
  set (t1 := <[ID q := {| entry := q; inserted := T |}]> conntable).
  assert (Hgone : cleanDnsCache t1 gcAge s !! ID q = None).
  { rewrite cleanDnsCache_lookup. unfold t1. rewrite lookup_insert_eq.
    unfold Time_Before, Time_Add. cbn.
    destruct (Z.ltb_spec T (s + gcAge)); [reflexivity|lia]. }
  exists (cleanDnsCache t1 gcAge s). split; [|assumption].
  cbn [run step]. rewrite (handlePacket_question _ _ _ _ _ Hq Hopq Hqrq). cbn.
  fold t1. rewrite (handlePacket_answer_missing _ _ _ _ _ Hr Hqrr); [reflexivity|].
  by rewrite Hid.
Qed.

Lemma run_app_eq (gcAge : Duration) (conntable : conntable_t) evs1 evs2 :
  run gcAge conntable (evs1 ++ evs2)
  = ('(mid, out1) ← run gcAge conntable evs1;
     '(fin, out2) ← run gcAge mid evs2;
     Ok (fin, out1 ++ out2)).
Proof.
  revert conntable. induction evs1 as [|ev evs1 IH]; intros conntable.
  - cbn. destruct (run gcAge conntable evs2) as [[fin out2]|]; reflexivity.
  - rewrite <- app_comm_cons. cbn [run].
    destruct (step gcAge conntable ev) as [[t1 o1]|]; cbn; [|reflexivity].
    rewrite IH. destruct (run gcAge t1 evs1) as [[t2 o2]|]; cbn; [|reflexivity].
    destruct (run gcAge t2 evs2) as [[t3 o3]|]; cbn; [|reflexivity].
    by rewrite app_assoc.
Qed.

Lemma step_keyed (gcAge : Duration) (conntable conntable' : conntable_t) ev out :
  keyed_by_ID conntable ->
  step gcAge conntable ev = Ok (conntable', out) ->
  keyed_by_ID conntable'.
Proof.
  destruct ev as [packet now stamps|now]; cbn; intros Hinv Hstep.
  - eapply handlePacket_keyed; eauto.
  - injection Hstep as <- <-. by apply cleanDnsCache_keyed.
Qed.

Lemma step_leaves_alone (gcAge : Duration) (k : Z) (e : dnsMapEntry)
    (conntable conntable' : conntable_t) ev out :
  keyed_by_ID conntable ->
  conntable !! k = Some e ->
  leaves_alone gcAge k (inserted e) ev ->
  step gcAge conntable ev = Ok (conntable', out) ->
  conntable' !! k = Some e.
Proof.
  destruct ev as [packet now stamps|now]; cbn; intros Hkeyed Hk Halone Hstep.
  - destruct Halone as [Hnone | (dns & Hdns & Hid)].
    + rewrite handlePacket_no_dns in Hstep by assumption. by injection Hstep as <- <-.
    + rewrite <- Hk. eapply handlePacket_other_IDs; eauto.
  - injection Hstep as <- <-. rewrite cleanDnsCache_lookup, Hk.
    unfold Time_Before, Time_Add.
    destruct (Z.ltb_spec (inserted e) (now + gcAge)); [lia|reflexivity].
Qed.

Lemma run_leaves_alone (gcAge : Duration) (k : Z) (e : dnsMapEntry)
    (conntable conntable' : conntable_t) evs out :
  keyed_by_ID conntable ->
  conntable !! k = Some e ->
  Forall (leaves_alone gcAge k (inserted e)) evs ->
  run gcAge conntable evs = Ok (conntable', out) ->
  conntable' !! k = Some e.
Proof.
  intros Hkeyed Hk Halone. revert conntable out Hkeyed Hk.
  induction Halone as [|ev evs Hev _ IH]; intros conntable out Hkeyed Hk Hrun.
  - cbn in Hrun. by injection Hrun as <- <-.
  - apply run_cons in Hrun as (mid & o1 & o2 & Hstep & Hrest & ->).
    eapply IH; [| |exact Hrest].
    + eapply step_keyed; eauto.
    + eapply step_leaves_alone; eauto.
Qed.

(** X10. From the start of a worker, a question is matched by the answer
    with its ID across any traffic in between that leaves its entry alone:
    packets without a DNS message or with another ID, and wake-ups of the
    collector whose cutoff is not after the arrival of the question.  The
    entries sent for the answer are those built from this question and
    this answer, and the answer removes the ID from the table. *)
Theorem X10_match_across_other_traffic
    (gcAge : Duration) (before mid : list event) (pq pr : Packet) (q r : DNS)
    (nowq nowr : Time) (stq str : nat -> Time) (srcIP dstIP : net_IP)
    (conntable : conntable_t) (out : list dnsLogEntry) :
  getDnsLayer pq = Ok (Some q) -> OpCode q = DNSOpCodeQuery -> QR q = false ->
  Forall (leaves_alone gcAge (ID q) nowq) mid ->
  run gcAge ∅ (before ++ Arrive pq nowq stq :: mid) = Ok (conntable, out) ->
  getIpaddrs pr = Ok (srcIP, dstIP) ->
  getDnsLayer pr = Ok (Some r) -> OpCode r = DNSOpCodeQuery -> QR r = true ->
  ID r = ID q ->
  run gcAge ∅ (before ++ Arrive pq nowq stq :: mid ++ [Arrive pr nowr str])
  = (logEntries ← initLogEntry str srcIP dstIP q r;
     Ok (delete (ID q) conntable, out ++ logEntries)).
Proof.
  intros Hq Hopq Hqrq Halone Hrun Hip Hr Hopr Hqrr Hid.
  assert (Hkeyed0 : keyed_by_ID (∅ : conntable_t)).
  { intros k e Hk. rewrite lookup_empty in Hk. discriminate. }
  pose proof Hrun as Hrun'.
  apply run_app in Hrun' as (t0 & o0 & o1 & Hbefore & Hrest & ->).
  apply run_cons in Hrest as (t1 & o2 & o3 & Hstep & Hmid & ->).
  cbn in Hstep. rewrite (handlePacket_question _ _ _ _ _ Hq Hopq Hqrq) in Hstep.
  injection Hstep as <- <-.
  assert (Hkeyed1 : keyed_by_ID (<[ID q := {| entry := q; inserted := nowq |}]> t0)).
  { intros k e. destruct (decide (ID q = k)) as [<-|Hne].
    - rewrite lookup_insert_eq. by intros [= <-].
    - rewrite lookup_insert_ne by assumption.
      by apply (run_keyed _ _ _ _ _ Hkeyed0 Hbefore). }
  assert (Hfound : conntable !! ID q = Some {| entry := q; inserted := nowq |}).
  { eapply run_leaves_alone; [exact Hkeyed1| |exact Halone|exact Hmid].
    apply lookup_insert_eq. }
  change (before ++ Arrive pq nowq stq :: mid ++ [Arrive pr nowr str])
    with (before ++ (Arrive pq nowq stq :: mid) ++ [Arrive pr nowr str]).
  rewrite app_assoc, run_app_eq, Hrun. cbn.
  rewrite (handlePacket_answer_found _ nowr str pr r
             {| entry := q; inserted := nowq |} srcIP dstIP Hip Hr Hopr Hqrr)
    by (by rewrite Hid).
  cbn [entry]. destruct (initLogEntry str srcIP dstIP q r) as [logEntries|]; cbn;
    [|reflexivity].
  by rewrite app_nil_r.
Qed.

(** X19. When [getDnsLayer] returns nil, or returns a message whose opcode
    is not Query, the loop body changes nothing: the table is returned as
    it was and no entry is sent, also when the ID of the message is in the
    table. *)
Theorem X19_nil_or_other_opcode_is_skipped
    (conntable : conntable_t) (now : Time) (stamps : nat -> Time) (packet : Packet) :
  getDnsLayer packet = Ok None
  \/ (exists dns, getDnsLayer packet = Ok (Some dns) /\ OpCode dns <> DNSOpCodeQuery) ->
  handlePacket conntable now stamps packet = Ok (conntable, []).
Proof.
  intros [Hnone | (dns & Hdns & Hop)].
  - by apply handlePacket_no_dns.
  - by eapply handlePacket_other_opcode.
Qed.

(** X3. From the start of a worker, every entry of the table is stored
    under the ID of the question it holds, after any packets and wake-ups:
    the key deleted on a match is the key that was looked up. *)
Theorem X3_entries_are_keyed_by_their_ID
    (gcAge : Duration) (evs : list event) (conntable : conntable_t)
    (out : list dnsLogEntry) :
  run gcAge ∅ evs = Ok (conntable, out) ->
  forall k e, conntable !! k = Some e -> ID (entry e) = k.
Proof.
  intros Hrun. eapply run_keyed; [|exact Hrun].
  intros k e Hk. rewrite lookup_empty in Hk. discriminate.
Qed.

(** ** The worker does not panic on well-formed traffic *)

Lemma step_harmless (gcAge : Duration) (conntable : conntable_t) ev :
  questions_nonempty conntable ->
  harmless ev ->
  exists conntable' out,
    step gcAge conntable ev = Ok (conntable', out)
    /\ questions_nonempty conntable'.
Proof.
  intros Hinv Hev. destruct ev as [packet now stamps|now]; cbn in *.
  - destruct Hev as [Hnone | (dns & Hdns & Hq)].
    + rewrite handlePacket_no_dns by assumption. eauto.
    + unfold handlePacket.
      destruct (getIpaddrs_total packet) as (srcIP & dstIP & ->). cbn.
      rewrite Hdns. cbn. destruct (negb _); [eauto|].
      destruct (QR dns) eqn:Hqr.
      * destruct (conntable !! ID dns) as [item|] eqn:Hfound; [|eauto].
        destruct (initLogEntry_cases stamps srcIP dstIP (entry item) dns)
          as [[_ [logEntries Hok]] | [[Hempty _] _]].
        -- rewrite Hok. cbn. eexists _, _. split; [reflexivity|].
           intros k e Hk. apply lookup_delete_Some in Hk as [_ Hk]. by eapply Hinv.
        -- by apply Hinv in Hfound.
      * eexists _, _. split; [reflexivity|].
        intros k e. destruct (decide (ID dns = k)) as [<-|Hne].
        -- rewrite lookup_insert_eq. intros [= <-]. by apply Hq.
        -- rewrite lookup_insert_ne by assumption. apply Hinv.
  - eexists _, _. split; [reflexivity|].
    intros k e. rewrite cleanDnsCache_lookup.
    destruct (conntable !! k) as [e'|] eqn:Hk; [|discriminate].
    destruct (Time_Before _ _); [discriminate|]. intros [= <-]. by eapply Hinv.
Qed.

(** X11. A worker never panics on a trace in which the extractor returns
    for every packet and every question has a question section. *)
Theorem X11_no_panic_on_well_formed_traffic (gcAge : Duration) (evs : list event) :
  Forall harmless evs ->
  exists conntable out, run gcAge ∅ evs = Ok (conntable, out).
Proof.
  intros Hevs.
  assert (Hgen : forall tbl : conntable_t, questions_nonempty tbl ->
            exists conntable out, run gcAge tbl evs = Ok (conntable, out)).
  { induction Hevs as [|ev evs Hev _ IH]; intros tbl Hinv.
    - cbn. eauto.
    - destruct (step_harmless gcAge tbl ev Hinv Hev) as (t1 & o1 & Hstep & Hinv1).
      destruct (IH t1 Hinv1) as (t2 & o2 & Hrest).
      cbn [run]. rewrite Hstep. cbn. rewrite Hrest. cbn. eauto. }
  apply Hgen. intros k e Hk. rewrite lookup_empty in Hk. discriminate.
Qed.

(** ** The size of the table *)

Lemma keys_uint16_size (conntable : conntable_t) :
  keys_uint16 conntable -> Z.of_nat (size conntable) <= 65536.
Proof.
  intros Hkeys. rewrite <- size_dom.
  assert (Hsub : dom conntable ⊆ (list_to_set (seqZ 0 65536) : gset Z)).
  { intros k Hk. apply elem_of_dom in Hk as [e Hk]. apply Hkeys in Hk.
    apply elem_of_list_to_set, elem_of_seqZ. lia. }
  apply subseteq_size in Hsub.
  rewrite size_list_to_set in Hsub by apply NoDup_seqZ.
  rewrite length_seqZ in Hsub. lia.
Qed.

Lemma step_keys_uint16 (gcAge : Duration) (conntable conntable' : conntable_t) ev out :
  keys_uint16 conntable ->
  uint16_ID ev ->
  step gcAge conntable ev = Ok (conntable', out) ->
  keys_uint16 conntable'.
Proof.
  destruct ev as [packet now stamps|now]; cbn; intros Hinv Hev Hstep.
  - destruct (getDnsLayer packet) as [[d|]|] eqn:Hdns.
    + pose proof (handlePacket_table_dns _ _ _ _ _ _ _ Hdns Hstep)
        as [Heq | [(_ & _ & Heq) | (item & s & d' & _ & _ & _ & _ & Heq)]];
        rewrite Heq; clear Heq.
      * assumption.
      * intros k e. destruct (decide (ID d = k)) as [<-|Hne].
        -- intros _. by apply Hev.
        -- rewrite lookup_insert_ne by assumption. apply Hinv.
      * intros k e Hk. apply lookup_delete_Some in Hk as [_ Hk]. by eapply Hinv.
    + rewrite handlePacket_no_dns in Hstep by assumption.
      injection Hstep as <- _. assumption.
    + unfold handlePacket in Hstep.
      destruct (getIpaddrs_total packet) as (s & d & Hip).
      rewrite Hip in Hstep. cbn in Hstep. rewrite Hdns in Hstep. discriminate.
  - injection Hstep as <- <-. intros k e. rewrite cleanDnsCache_lookup.
    destruct (conntable !! k) as [e'|] eqn:Hk; [|discriminate].
    destruct (Time_Before _ _); [discriminate|]. intros _. by eapply Hinv.
Qed.

(** X12. The table of a worker never holds more than 65536 entries, with or
    without the collector, as long as the IDs of the DNS messages fit
    sixteen bits (as the field of the decoder does). *)
Theorem X12_table_has_at_most_65536_entries
    (gcAge : Duration) (evs : list event) (conntable : conntable_t)
    (out : list dnsLogEntry) :
  Forall uint16_ID evs ->
  run gcAge ∅ evs = Ok (conntable, out) ->
  Z.of_nat (size conntable) <= 65536.
Proof.
  intros Hevs Hrun. apply keys_uint16_size.
  assert (Hgen : forall tbl : conntable_t, keys_uint16 tbl ->
            forall fin o, run gcAge tbl evs = Ok (fin, o) -> keys_uint16 fin).
  { clear Hrun. induction Hevs as [|ev evs Hev _ IH]; intros tbl Hinv fin o Hrun.
    - cbn in Hrun. by injection Hrun as <- <-.
    - apply run_cons in Hrun as (mid & o1 & o2 & Hstep & Hrest & ->).
      eapply IH; [|exact Hrest]. eapply step_keys_uint16; eauto. }
  eapply Hgen; [|exact Hrun].
  intros k e Hk. rewrite lookup_empty in Hk. discriminate.
Qed.

(** ** Where the entries come from *)

Lemma initLogEntry_entries stamps srcIP dstIP question reply logEntries :
  initLogEntry stamps srcIP dstIP question reply = Ok logEntries ->
  Forall (fun e => Query_ID e = ID reply
                   /\ Response_Code e = ResponseCode reply
                   /\ Server e = srcIP /\ Client e = dstIP
                   /\ encoded e = None /\ err e = None) logEntries.
Proof.
  intros Hok.
  destruct (Questions question) as [|q0 qs] eqn:Hq.
  - destruct (initLogEntry_cases stamps srcIP dstIP question reply)
      as [[[Hne | [Hrc Hk]] _] | [_ Hpanic]]; [done| |congruence].
    rewrite initLogEntry_success, Hk in Hok by assumption.
    cbn in Hok. injection Hok as <-. constructor.
  - destruct (Z.eq_dec (ResponseCode reply) 0) as [Hrc|Hrc].
    + rewrite initLogEntry_success in Hok by assumption.
      erewrite initLogEntry_range_nonempty in Hok by eassumption.
      injection Hok as <-. cbn. apply Forall_lookup. intros i e.
      rewrite list_lookup_imap. destruct (Answers reply !! i); [|discriminate].
      cbn. intros [= <-]. cbn. auto 6.
    + erewrite initLogEntry_failure in Hok by eassumption.
      injection Hok as <-. repeat constructor.
Qed.

Lemma handlePacket_entries (conntable conntable' : conntable_t) now stamps packet out e :
  handlePacket conntable now stamps packet = Ok (conntable', out) ->
  e ∈ out ->
  exists dns srcIP dstIP,
    getDnsLayer packet = Ok (Some dns) /\ QR dns = true
    /\ is_Some (conntable !! ID dns)
    /\ getIpaddrs packet = Ok (srcIP, dstIP)
    /\ Query_ID e = ID dns /\ Response_Code e = ResponseCode dns
    /\ Server e = srcIP /\ Client e = dstIP.
Proof.
  unfold handlePacket. intros Hstep He.
  destruct (getIpaddrs packet) as [[srcIP dstIP]|]; cbn in Hstep; [|discriminate].
  destruct (getDnsLayer packet) as [[dns|]|]; cbn in Hstep; [| |discriminate].
  - destruct (negb _); [injection Hstep as _ <-; by apply elem_of_nil in He|].
    destruct (QR dns) eqn:Hqr;
      [|injection Hstep as _ <-; by apply elem_of_nil in He].
    destruct (conntable !! ID dns) as [item|] eqn:Hfound;
      [|injection Hstep as _ <-; by apply elem_of_nil in He].
    destruct (initLogEntry stamps srcIP dstIP (entry item) dns) as [l|] eqn:Hlog;
      cbn in Hstep; [|discriminate].
    injection Hstep as _ <-.
    apply initLogEntry_entries in Hlog. rewrite Forall_forall in Hlog.
    apply Hlog in He as (? & ? & ? & ? & _).
    exists dns, srcIP, dstIP. repeat split; try assumption. by exists item.
  - injection Hstep as _ <-. by apply elem_of_nil in He.
Qed.

(** X13. Every entry a worker sends comes from an answer in its trace: a
    packet whose DNS message has QR set and whose ID was in the table when
    it arrived.  The entry carries the ID and the response code of that
    message, the source address of that packet as the server and its
    destination address as the client. *)
Theorem X13_entries_come_from_answers
    (gcAge : Duration) (conntable conntable' : conntable_t) (evs : list event)
    (out : list dnsLogEntry) (e : dnsLogEntry) :
  run gcAge conntable evs = Ok (conntable', out) ->
  e ∈ out ->
  exists packet now stamps dns srcIP dstIP,
    Arrive packet now stamps ∈ evs
    /\ getDnsLayer packet = Ok (Some dns) /\ QR dns = true
    /\ getIpaddrs packet = Ok (srcIP, dstIP)
    /\ Query_ID e = ID dns /\ Response_Code e = ResponseCode dns
    /\ Server e = srcIP /\ Client e = dstIP.
Proof.
  revert conntable out. induction evs as [|ev evs IH]; intros conntable out Hrun He.
  - cbn in Hrun. injection Hrun as _ <-. by apply elem_of_nil in He.
  - apply run_cons in Hrun as (mid & o1 & o2 & Hstep & Hrest & ->).
    apply elem_of_app in He as [He | He].
    + destruct ev as [packet now stamps|now]; cbn in Hstep.
      * destruct (handlePacket_entries _ _ _ _ _ _ _ Hstep He)
          as (dns & s & d & Hdns & Hqr & _ & Hip & Hfields).
        exists packet, now, stamps, dns, s, d.
        split; [apply elem_of_cons; by left|]. auto.
      * injection Hstep as _ <-. by apply elem_of_nil in He.
    + destruct (IH _ _ Hrest He) as (packet & now & stamps & dns & s & d & Hin & Hrem).
      exists packet, now, stamps, dns, s, d.
      split; [apply elem_of_cons; by right|assumption].
Qed.

End Loop.

(** ** The cached encoding *)

Section Cache.
Context `{!Json}.

Lemma ensureEncoded_idempotent (dle : dnsLogEntry) :
  ensureEncoded (ensureEncoded dle) = ensureEncoded dle.
Proof.
  destruct dle as [qid rc q qt a aty ttl srv cl ts enc er].
  destruct enc as [b|], er as [msg|]; try reflexivity.
  unfold ensureEncoded. cbn.
  destruct (json_Marshal _) as [[b|] [msg|]] eqn:Hm; cbn; rewrite ?Hm; reflexivity.
Qed.

(** X14. The encoding of an entry is made once and kept: a second [Encode]
    returns the bytes and the error of the first and leaves the entry as
    the first left it, also after a failed encoding; [Length] is the number
    of the bytes [Encode] returns; and an entry that already holds an
    encoding or an error is returned as it is, without a new encoding. *)
Theorem X14_encoding_is_cached (dle : dnsLogEntry) :
  Encode (Encode dle).2 = Encode dle
  /\ Length dle = (len_bytes (Encode dle).1.1, (Encode dle).2)
  /\ Length (Encode dle).2 = Length dle
  /\ (encoded dle <> None \/ err dle <> None ->
      Encode dle = ((encoded dle, err dle), dle)).
Proof.
  unfold Encode, Length. cbn. rewrite ensureEncoded_idempotent.
  repeat split.
  intros Hcached. destruct dle as [qid rc q qt a aty ttl srv cl ts enc er].
  cbn in Hcached |- *. destruct enc, er; try reflexivity.
  destruct Hcached; done.
Qed.

End Cache.

Lemma X14_witness :
  @Encode sample_Json
    {| Query_ID := 1; Response_Code := 2; Question := ""; Question_Type := "A";
       Answer := "Server Failure"; Answer_Type := ""; TTL := 0;
       Server := server_IP; Client := client_IP; Timestamp := "1000";
       encoded := Some [x7b; x7d]; err := None |}
  = ((Some [x7b; x7d], None),
     {| Query_ID := 1; Response_Code := 2; Question := ""; Question_Type := "A";
        Answer := "Server Failure"; Answer_Type := ""; TTL := 0;
        Server := server_IP; Client := client_IP; Timestamp := "1000";
        encoded := Some [x7b; x7d]; err := None |}).
Proof.
  apply (@X14_encoding_is_cached sample_Json). left. discriminate.
Defined.

(** ** The sinks *)

#[local] Set Warnings "-clear-no-such-hyp".

Lemma logConn_logs_eq (quiet : bool) (filename kafkaBrokers kafkaTopic : string) :
  logConn_logs quiet filename kafkaBrokers kafkaTopic
  = (if quiet then [] else [stdoutChan])
    ++ (if String.eqb filename "" then [] else [fileChan filename]).
Proof.
  unfold logConn_logs. rewrite andb_false_r.
  destruct quiet, (String.eqb filename ""); reflexivity.
Qed.

(** X15. Whatever brokers and topic are given, no Kafka sink is set up: the
    sinks are the console unless [quiet], then the file when a file name is
    given, and nothing else.  With [quiet] and no file name there is no
    sink at all. *)
Theorem X15_no_kafka_sink (quiet : bool) (filename kafkaBrokers kafkaTopic : string) :
  (forall b t, kafkaChan b t ∉ logConn_logs quiet filename kafkaBrokers kafkaTopic)
  /\ logConn_logs quiet filename kafkaBrokers kafkaTopic
     = logConn_logs quiet filename "" ""
  /\ (stdoutChan ∈ logConn_logs quiet filename kafkaBrokers kafkaTopic
      <-> quiet = false)
  /\ (forall f, fileChan f ∈ logConn_logs quiet filename kafkaBrokers kafkaTopic
                <-> f = filename /\ filename <> "").
Proof.
  rewrite !logConn_logs_eq.
  destruct quiet; destruct (String.eqb_spec filename "") as [->|Hf]; cbn;
    repeat split; try set_solver.
Qed.

Lemma logConn_logs_NoDup quiet filename kafkaBrokers kafkaTopic :
  NoDup (logConn_logs quiet filename kafkaBrokers kafkaTopic).
Proof.
  rewrite logConn_logs_eq.
  destruct quiet, (String.eqb filename ""); cbn; repeat constructor;
    set_solver.
Qed.

Lemma received_from_one_message (logs : list sink) (logChan : sink) (message : dnsLogEntry) :
  NoDup logs ->
  filter (fun send : sink * dnsLogEntry => send.1 = logChan)
         (map (fun c => (c, message)) logs)
  = if decide (logChan ∈ logs) then [(logChan, message)] else [].
Proof.
  induction 1 as [|c logs Hc Hnd IH]; cbn [List.map].
  - rewrite filter_nil. by rewrite decide_False by apply not_elem_of_nil.
  - destruct (decide (c = logChan)) as [->|Hne].
    + rewrite filter_cons_True by reflexivity. rewrite IH.
      rewrite decide_False by assumption.
      by rewrite decide_True by (apply elem_of_cons; by left).
    + rewrite filter_cons_False by (cbn; congruence). rewrite IH.
      destruct (decide (logChan ∈ logs)) as [Hin|Hin].
      * by rewrite decide_True by (apply elem_of_cons; by right).
      * rewrite decide_False; [reflexivity|].
        intros [Heq|Hin']%elem_of_cons; congruence.
Qed.

Lemma received_all (logs : list sink) (logC : list dnsLogEntry) (logChan : sink) :
  NoDup logs ->
  received logChan (logConn_sends logs logC)
  = if decide (logChan ∈ logs) then logC else [].
Proof.
  intros Hnd. unfold received, logConn_sends.
  induction logC as [|message logC IH]; cbn [flat_map].
  - rewrite filter_nil. by destruct (decide _).
  - rewrite filter_app, map_app, IH, received_from_one_message by assumption.
    by destruct (decide _).
Qed.

(** X16. The dispatch loop of [logConn] hands every message to every sink
    that was set up, in the order the messages come in: each sink receives
    the whole sequence (no sharing out of the messages between the
    sinks), and what is not set up receives nothing. *)
Theorem X16_every_sink_receives_every_message
    (quiet : bool) (filename kafkaBrokers kafkaTopic : string)
    (logC : list dnsLogEntry) (logChan : sink) :
  received logChan
    (logConn_sends (logConn_logs quiet filename kafkaBrokers kafkaTopic) logC)
  = if decide (logChan ∈ logConn_logs quiet filename kafkaBrokers kafkaTopic)
    then logC else [].
Proof. apply received_all, logConn_logs_NoDup. Qed.

(** ** The dispatch of packets to the workers *)

Section Sharding.
Context `{!Extern}.

(** X17. The dispatch loop never indexes [channels] out of range, whatever
    the hash.  Worker [w] is sent exactly the packets whose worker is [w],
    in the order of capture; a packet without a network layer is sent to
    no worker. *)
Theorem X17_dispatch_partitions_the_packets (packets : list Packet) :
  exists channels,
    doCapture_dispatch packets = Ok channels
    /\ length channels = 8%nat
    /\ (forall w : nat, (w < 8)%nat ->
          channels !! w
          = Some (filter (fun p => doCapture_worker p = Some (Z.of_nat w)) packets))
    /\ (forall (w : nat) sent p,
          channels !! w = Some sent -> p ∈ sent ->
          p ∈ packets /\ Packet_NetworkLayer p <> None).
Proof.
  destruct (doCapture_dispatch_queues packets) as (channels & Hrun & Hlen & Hq).
  exists channels. split; [assumption|]. split; [assumption|]. split; [assumption|].
  intros w sent p Hsent Hp.
  assert (Hw : (w < 8)%nat) by (rewrite <- Hlen; by eapply lookup_lt_Some).
  rewrite Hq in Hsent by assumption. injection Hsent as <-.
  apply list_elem_of_filter in Hp as [Hworker Hin]. split; [assumption|].
  unfold doCapture_worker in Hworker. intros Hnone. by rewrite Hnone in Hworker.
Qed.

(** X18. When the hash of a flow equals the hash of the reversed flow, a
    question and an answer in the opposite direction that is captured later
    are sent to the same worker, the question first: the worker's queue is
    its share of the packets before the question, the question, its share
    of those in between, the answer, and its share of those after. *)
Theorem X18_question_reaches_its_worker_before_the_answer
    (pre mid post : list Packet) (pq pr : Packet) (nq nr : Layer) :
  (forall f, FastHash (Flow_Reverse f) = FastHash f) ->
  Packet_NetworkLayer pq = Some nq ->
  Packet_NetworkLayer pr = Some nr ->
  NetworkFlow nr = Flow_Reverse (NetworkFlow nq) ->
  exists channels (w : nat),
    doCapture_dispatch (pre ++ pq :: mid ++ pr :: post) = Ok channels
    /\ (w < 8)%nat
    /\ doCapture_worker pq = Some (Z.of_nat w)
    /\ doCapture_worker pr = Some (Z.of_nat w)
    /\ channels !! w
       = Some (filter (fun p => doCapture_worker p = Some (Z.of_nat w)) pre
               ++ pq :: filter (fun p => doCapture_worker p = Some (Z.of_nat w)) mid
               ++ pr :: filter (fun p => doCapture_worker p = Some (Z.of_nat w)) post).
Proof.
  intros Hsym Hq Hr Hrev.
  destruct (doCapture_dispatch_queues (pre ++ pq :: mid ++ pr :: post))
    as (channels & Hrun & Hlen & Hqueues).
  pose proof (doCapture_worker_flow pq nq Hq) as Hwq.
  pose proof (doCapture_worker_flow pr nr Hr) as Hwr.
  rewrite Hrev, Hsym in Hwr.
  set (i := FastHash (NetworkFlow nq) mod 8) in *.
  assert (Hi : 0 <= i < 8) by (apply Z.mod_pos_bound; lia).
  assert (Hiw : Z.of_nat (Z.to_nat i) = i) by lia.
  exists channels, (Z.to_nat i).
  split; [assumption|]. split; [lia|].
  rewrite Hiw. split; [assumption|]. split; [assumption|].
  rewrite Hqueues by lia. rewrite Hiw.
  rewrite filter_app, filter_cons_True by assumption.
  rewrite filter_app, filter_cons_True by assumption.
  reflexivity.
Qed.

End Sharding.

(** * The further properties on sample traffic *)

Lemma sample_table_keyed :
  keyed_by_ID (<[4660 := {| entry := sample_query; inserted := 100 |}]> ∅).
Proof.
  intros k e Hk. apply lookup_insert_Some in Hk as [[<- <-] | [_ Hk]]; [reflexivity|].
  rewrite lookup_empty in Hk. discriminate.
Defined.

Lemma X3_witness :
  ID (entry {| entry := sample_query'; inserted := 101 |}) = 4660.
Proof.
  refine (@X3_entries_are_keyed_by_their_ID sample_Extern (-60)
            [Arrive (udp_packet client_IP server_IP sample_query) 100 stamps0;
             Arrive (udp_packet client_IP server_IP sample_query') 101 stamps0;
             Wake 120]
            (<[4660 := {| entry := sample_query'; inserted := 101 |}]> ∅) [] _
            4660 {| entry := sample_query'; inserted := 101 |} _).
  - vm_compute. reflexivity.
  - vm_compute. reflexivity.
Defined.

Lemma X7_witness :
  (<[7 := {| entry := other_query; inserted := 101 |}]>
     (<[4660 := {| entry := sample_query; inserted := 100 |}]> ∅) : conntable_t) !! 4660
  = (<[4660 := {| entry := sample_query; inserted := 100 |}]> ∅ : conntable_t) !! 4660.
Proof.
  refine (@X7_other_IDs_are_untouched sample_Extern _ _ 101 stamps0
            (udp_packet client_IP server_IP other_query) other_query [] 4660
            sample_table_keyed eq_refl _ _).
  - vm_compute. reflexivity.
  - cbn. lia.
Defined.

Lemma X8_witness :
  @run sample_Extern (-60) ∅
    [Arrive (udp_packet client_IP server_IP sample_query) 100 stamps0;
     Arrive (udp_packet server_IP client_IP sample_reply) 101 stamps0]
  = (logEntries ← @initLogEntry sample_Extern stamps0 server_IP client_IP
                    sample_query sample_reply;
     Ok (delete 4660 ∅, logEntries)).
Proof.
  exact (@X8_question_then_answer sample_Extern (-60) ∅
           (udp_packet client_IP server_IP sample_query)
           (udp_packet server_IP client_IP sample_reply)
           sample_query sample_reply 100 101 stamps0 stamps0 server_IP client_IP
           eq_refl eq_refl eq_refl eq_refl eq_refl eq_refl eq_refl eq_refl).
Defined.

Lemma X9_witness :
  exists conntable' : conntable_t,
    @run sample_Extern (-60) ∅
      [Arrive (udp_packet client_IP server_IP sample_query) 100 stamps0;
       Wake 161;
       Arrive (udp_packet server_IP client_IP sample_reply) 162 stamps0]
    = Ok (conntable', [])
    /\ conntable' !! 4660 = None.
Proof.
  refine (@X9_answer_after_collection_is_dropped sample_Extern (-60) ∅
            (udp_packet client_IP server_IP sample_query)
            (udp_packet server_IP client_IP sample_reply)
            sample_query sample_reply 100 161 162 stamps0 stamps0
            eq_refl eq_refl eq_refl eq_refl eq_refl eq_refl _).
  lia.
Defined.

Lemma X10_witness :
  @run sample_Extern (-60) ∅
    ([] ++ Arrive (udp_packet client_IP server_IP sample_query) 100 stamps0
        :: [Arrive (udp_packet client_IP server_IP other_query) 101 stamps0; Wake 150]
        ++ [Arrive (udp_packet server_IP client_IP sample_reply) 151 stamps0])
  = (logEntries ← @initLogEntry sample_Extern stamps0 server_IP client_IP
                    sample_query sample_reply;
     Ok (delete 4660
           (<[7 := {| entry := other_query; inserted := 101 |}]>
              (<[4660 := {| entry := sample_query; inserted := 100 |}]> ∅)),
         [] ++ logEntries)).
Proof.
  refine (@X10_match_across_other_traffic sample_Extern (-60) []
            [Arrive (udp_packet client_IP server_IP other_query) 101 stamps0; Wake 150]
            (udp_packet client_IP server_IP sample_query)
            (udp_packet server_IP client_IP sample_reply)
            sample_query sample_reply 100 151 stamps0 stamps0 server_IP client_IP
            _ [] eq_refl eq_refl eq_refl _ _ eq_refl eq_refl eq_refl eq_refl eq_refl).
  - apply Forall_cons. split.
    + right. exists other_query. split; [reflexivity|]. cbn. lia.
    + apply Forall_cons. split; [cbn; lia|constructor].
  - vm_compute. reflexivity.
Defined.

Lemma X11_witness :
  exists conntable out,
    @run sample_Extern (-60) ∅
      [Arrive (udp_packet client_IP server_IP sample_query) 100 stamps0;
       Arrive arp_packet 101 stamps0;
       Wake 120;
       Arrive (udp_packet server_IP client_IP sample_reply) 121 stamps0]
    = Ok (conntable, out).
Proof.
  apply (@X11_no_panic_on_well_formed_traffic sample_Extern).
  apply Forall_cons. split.
  { right. exists sample_query. split; [reflexivity|]. intros _. discriminate. }
  apply Forall_cons. split; [left; reflexivity|].
  apply Forall_cons. split; [exact I|].
  apply Forall_cons. split; [|constructor].
  right. exists sample_reply. split; [reflexivity|]. intros _. discriminate.
Defined.

Lemma X12_witness :
  Z.of_nat (size (<[4660 := {| entry := sample_query; inserted := 100 |}]> ∅ : conntable_t))
  <= 65536.
Proof.
  refine (@X12_table_has_at_most_65536_entries sample_Extern (-60)
            [Arrive (udp_packet client_IP server_IP sample_query) 100 stamps0]
            _ [] _ _).
  - apply Forall_cons. split; [|constructor].
    intros dns [= <-]. cbn. lia.
  - vm_compute. reflexivity.
Defined.

Lemma X13_witness :
  exists packet now stamps dns srcIP dstIP,
    Arrive packet now stamps
      ∈ [Arrive (udp_packet client_IP server_IP sample_query) 100 stamps0;
         Arrive (udp_packet server_IP client_IP sample_reply) 101 stamps0]
    /\ @getDnsLayer sample_Extern packet = Ok (Some dns) /\ QR dns = true
    /\ getIpaddrs packet = Ok (srcIP, dstIP)
    /\ Query_ID sample_entry = ID dns /\ Response_Code sample_entry = ResponseCode dns
    /\ Server sample_entry = srcIP /\ Client sample_entry = dstIP.
Proof.
  refine (@X13_entries_come_from_answers sample_Extern (-60) ∅ ∅ _ [sample_entry]
            sample_entry _ _).
  - vm_compute. reflexivity.
  - apply elem_of_cons. by left.
Defined.

Lemma X18_witness :
  exists channels (w : nat),
    @doCapture_dispatch sample_Extern
      ([arp_packet] ++ udp_packet client_IP server_IP sample_query
         :: [udp_packet client_IP server_IP other_query]
         ++ udp_packet server_IP client_IP sample_reply :: [])
    = Ok channels
    /\ (w < 8)%nat
    /\ @doCapture_worker sample_Extern (udp_packet client_IP server_IP sample_query)
       = Some (Z.of_nat w)
    /\ @doCapture_worker sample_Extern (udp_packet server_IP client_IP sample_reply)
       = Some (Z.of_nat w)
    /\ channels !! w
       = Some (filter (fun p => @doCapture_worker sample_Extern p = Some (Z.of_nat w))
                      [arp_packet]
               ++ udp_packet client_IP server_IP sample_query
               :: filter (fun p => @doCapture_worker sample_Extern p = Some (Z.of_nat w))
                         [udp_packet client_IP server_IP other_query]
               ++ udp_packet server_IP client_IP sample_reply
               :: filter (fun p => @doCapture_worker sample_Extern p = Some (Z.of_nat w))
                         []).
Proof.
  exact (@X18_question_reaches_its_worker_before_the_answer sample_Extern
           [arp_packet] [udp_packet client_IP server_IP other_query] []
           (udp_packet client_IP server_IP sample_query)
           (udp_packet server_IP client_IP sample_reply)
           (IPv4Layer client_IP server_IP []) (IPv4Layer server_IP client_IP [])
           sample_FastHash_symmetric eq_refl eq_refl eq_refl).
Defined.

(** The queues of the eight workers for four captured packets: the packet
    without a network layer is sent nowhere, the three others, of one flow
    in both directions, go to worker 5 in the order of capture. *)
Example dispatch_of_four_packets :
  @doCapture_dispatch sample_Extern
    [arp_packet;
     udp_packet client_IP server_IP sample_query;
     udp_packet client_IP server_IP other_query;
     udp_packet server_IP client_IP sample_reply]
  = Ok [[]; []; []; []; [];
        [udp_packet client_IP server_IP sample_query;
         udp_packet client_IP server_IP other_query;
         udp_packet server_IP client_IP sample_reply];
        []; []].
Proof. vm_compute. reflexivity. Qed.

Lemma X19_witness :
  @handlePacket sample_Extern
    (<[4660 := {| entry := sample_query; inserted := 100 |}]> ∅) 101 stamps0 arp_packet
  = Ok (<[4660 := {| entry := sample_query; inserted := 100 |}]> ∅, [])
  /\ @handlePacket sample_Extern
       (<[4660 := {| entry := sample_query; inserted := 100 |}]> ∅) 101 stamps0
       (udp_packet client_IP server_IP sample_update)
     = Ok (<[4660 := {| entry := sample_query; inserted := 100 |}]> ∅, []).
Proof.
  split.
  - apply (@X19_nil_or_other_opcode_is_skipped sample_Extern). left. reflexivity.
  - apply (@X19_nil_or_other_opcode_is_skipped sample_Extern). right.
    exists sample_update. split; [reflexivity|]. cbn. unfold DNSOpCodeQuery. lia.
Defined.
